(** * Climate dashboard (App.py): filters, indicators, tabs

    A shallow embedding of the data pipeline of [App.py].  The script is a
    single pass: three tables come out of [load_climate_data], the sidebar
    gives a year range and a region selection, the tables are masked, and
    every widget is computed from the masked (or, for a few, the unmasked)
    tables.

    Modelling choices.
    - A DataFrame is the list of its rows, in row order; a boolean mask
      [df[mask]] is [filter].
    - Years are [Z]; Python's [//] on integers is floor division, as is
      [Z.div] for a positive divisor.
    - Float columns hold exact rationals ([Q]): rounding of binary64 is not
      modelled.  A cell that pandas fills with NaN is [None].
    - Python exceptions are explicit: a computation returns [Ok v] or
      [Raised e].
    - Plotting, streamlit layout and number formatting are left out: a
      widget is the data handed to it.
    - The random draws of [load_climate_data] are a parameter: every
      statement about the generated tables holds for all draws. *)

From Stdlib Require Import ZArith QArith Qreals Rbase Rbasic_fun R_sqrt.
From Stdlib Require Import Lia Lra Psatz.
From stdpp Require Import base decidable option list list_numbers strings sorting.

Local Open Scope Z_scope.

(** ** Tables *)

Module Temp.
Record row := { Year : Z; Temperature_Anomaly : Q; Region : string }.
End Temp.

Module CO2.
Record row := { Year : Z; CO2_ppm : Q }.
End CO2.

Module Sea.
Record row := { Year : Z; Sea_Level_mm : Q }.
End Sea.

(** The sidebar: [year_range] is the slider's pair, [selected_regions] the
    multiselect's list. *)
Record controls := {
  year_range : Z * Z;
  selected_regions : list string
}.

(** ** Exceptions *)

Inductive exn := IndexError | NameError.

Inductive outcome (A : Type) :=
| Ok (a : A)
| Raised (e : exn).
Arguments Ok {A} a.
Arguments Raised {A} e.

#[global] Instance outcome_ret : MRet outcome := λ A a, Ok a.

#[global] Instance outcome_bind : MBind outcome := λ A B k m,
  match m with
  | Ok a => k a
  | Raised e => Raised e
  end.

#[global] Instance outcome_fmap : FMap outcome := λ A B f m,
  match m with
  | Ok a => Ok (f a)
  | Raised e => Raised e
  end.

(** [s.iloc[i]]: position [i], counted from the end when [i] is negative;
    out of bounds raises IndexError.  Python's list indexing behaves alike. *)
Definition iloc {A} (s : list A) (i : Z) : outcome A :=
  let n := Z.of_nat (length s) in
  let j := if decide (i < 0) then n + i else i in
  if decide (0 ≤ j < n) then
    match s !! Z.to_nat j with
    | Some a => Ok a
    | None => Raised IndexError
    end
  else Raised IndexError.

(** ** Filter data based on selections (lines 98-110) *)

Definition filtered_temp (temp_data : list Temp.row) (c : controls)
  : list Temp.row :=
  filter (λ r, (year_range c).1 ≤ Temp.Year r
               ∧ Temp.Year r ≤ (year_range c).2
               ∧ Temp.Region r ∈ selected_regions c) temp_data.

Definition filtered_co2 (co2_data : list CO2.row) (c : controls)
  : list CO2.row :=
  filter (λ r, (year_range c).1 ≤ CO2.Year r
               ∧ CO2.Year r ≤ (year_range c).2) co2_data.

Definition filtered_sea (sea_data : list Sea.row) (c : controls)
  : list Sea.row :=
  filter (λ r, (year_range c).1 ≤ Sea.Year r
               ∧ Sea.Year r ≤ (year_range c).2) sea_data.

(** Line 118: the Global rows are masked out of the unfiltered table. *)
Definition global_temp_data (temp_data : list Temp.row) (c : controls)
  : list Temp.row :=
  filter (λ r, (year_range c).1 ≤ Temp.Year r
               ∧ Temp.Year r ≤ (year_range c).2
               ∧ Temp.Region r = "Global"%string) temp_data.

(** ** Widgets *)

Inductive delta :=
| Change (d : Q)
| ChangeSince (d : Q) (since : Z)
| Note (s : string).

(** [st.metric(label, value, delta)]; the N/A variant carries the hint shown
    in place of the delta. *)
Inductive metric :=
| Metric (label : string) (value : Q) (d : delta)
| MetricNA (label : string) (hint : string).

(** ** Key Metrics Row (lines 112-182) *)

(** [col1] binds [latest_temp] and [first_temp] only in its first branch;
    [col4] reads them later.  The environment is passed on explicitly. *)
Definition col1 (global_temp_data : list Temp.row) (c : controls)
  : outcome (metric * option (Q * Q)) :=
  if decide (0 < length global_temp_data)%nat then
    latest_temp ← iloc (Temp.Temperature_Anomaly <$> global_temp_data) (-1);
    first_temp ← iloc (Temp.Temperature_Anomaly <$> global_temp_data) 0;
    mret (Metric "Global Temp Anomaly" latest_temp
            (ChangeSince (latest_temp - first_temp) (year_range c).1),
          Some (latest_temp, first_temp))
  else
    mret (MetricNA "Global Temp Anomaly" "Select 'Global' region", None).

Definition col2 (filtered_co2 : list CO2.row) : outcome metric :=
  if decide (0 < length filtered_co2)%nat then
    latest_co2 ← iloc (CO2.CO2_ppm <$> filtered_co2) (-1);
    first_co2 ← iloc (CO2.CO2_ppm <$> filtered_co2) 0;
    mret (Metric "CO2 Levels" latest_co2 (Change (latest_co2 - first_co2)))
  else
    mret (MetricNA "CO2 Levels" "Data starts from 1958").

Definition col3 (filtered_sea : list Sea.row) : outcome metric :=
  if decide (0 < length filtered_sea)%nat then
    latest_sea ← iloc (Sea.Sea_Level_mm <$> filtered_sea) (-1);
    mret (Metric "Sea Level Rise" latest_sea (ChangeSince latest_sea 1993))
  else
    mret (MetricNA "Sea Level Rise" "Data starts from 1993").

Definition avg_increase (latest_temp first_temp : Q) (count : nat) : Q :=
  ((latest_temp - first_temp) / inject_Z (Z.of_nat count) * 10)%Q.

Definition col4 (global_temp_data : list Temp.row) (env : option (Q * Q))
  : outcome metric :=
  if decide (0 < length global_temp_data)%nat then
    match env with
    | Some (latest_temp, first_temp) =>
        let a := avg_increase latest_temp first_temp (length global_temp_data) in
        mret (Metric "Warming Rate" a
                (Note (if Qlt_le_dec 0.15 a then "Accelerating" else "Stable")))
    | None => Raised NameError
    end
  else
    mret (MetricNA "Warming Rate" "Select 'Global' region").

Record indicators := {
  temp_metric : metric;
  co2_metric : metric;
  sea_metric : metric;
  rate_metric : metric
}.

(** ** Tab 1: decade comparison (lines 212-220) *)

Definition Decade (r : Temp.row) : Z := (Temp.Year r `div` 10) * 10.

Definition sum (x : list Q) : Q := foldr Qplus 0%Q x.

(** [Series.mean()]: NaN on an empty series. *)
Definition mean (x : list Q) : option Q :=
  match x with
  | [] => None
  | _ => Some (sum x / inject_Z (Z.of_nat (length x)))%Q
  end.

(** [df.groupby(key)]: one group per distinct key, groups in increasing key
    order, rows of a group in their original order. *)
Definition group_keys (ks : list Z) : list Z :=
  merge_sort Z.le (remove_dups ks).

Definition groupby {A} (key : A → Z) (df : list A) : list (Z * list A) :=
  (λ k, (k, filter (λ r, key r = k) df)) <$> group_keys (key <$> df).

Definition decade_summary (decade_avg : list Temp.row) : list (Z * option Q) :=
  (λ g, (g.1, mean (Temp.Temperature_Anomaly <$> g.2)))
    <$> groupby Decade decade_avg.

Record tab1_charts := {
  fig_temp : list Temp.row;
  decade_region : string;
  fig_decade : list (Z * option Q);
  fig_regional : option (list Temp.row)
}.

Inductive tab1_view :=
| Tab1 (charts : tab1_charts)
| Tab1Warning (msg : string).

Definition tab1 (filtered_temp : list Temp.row) (c : controls)
  : outcome tab1_view :=
  if decide (0 < length filtered_temp)%nat then
    region ←
      (if decide ("Global"%string ∈ Temp.Region <$> filtered_temp)
       then mret "Global"%string
       else iloc (Temp.Region <$> filtered_temp) 0);
    let decade_avg := filter (λ r, Temp.Region r = region) filtered_temp in
    let latest_year_data :=
      filter (λ r, Temp.Year r = (year_range c).2) filtered_temp in
    mret (Tab1 {|
      fig_temp := filtered_temp;
      decade_region := region;
      fig_decade := decade_summary decade_avg;
      fig_regional :=
        if decide (0 < length latest_year_data)%nat
        then Some latest_year_data else None |})
  else
    mret (Tab1Warning
      "⚠️ Please select at least one region from the sidebar to view temperature data.").

(** ** Tab 2: CO2 growth rate (lines 280-281) *)

Fixpoint diff_from (prev : Q) (x : list Q) : list (option Q) :=
  match x with
  | [] => []
  | v :: rest => Some (v - prev)%Q :: diff_from v rest
  end.

(** [Series.diff()]: the result keeps the index of its input; the first cell
    is NaN, every later cell is the value minus the one before it. *)
Definition diff (x : list Q) : list (option Q) :=
  match x with
  | [] => []
  | v :: rest => None :: diff_from v rest
  end.

Record growth_row := {
  growth_Year : Z;
  growth_CO2_ppm : Q;
  Growth_Rate : option Q
}.

Definition co2_growth (filtered_co2 : list CO2.row) : list growth_row :=
  zip_with (λ r g, {| growth_Year := CO2.Year r;
                      growth_CO2_ppm := CO2.CO2_ppm r;
                      Growth_Rate := g |})
    filtered_co2 (diff (CO2.CO2_ppm <$> filtered_co2)).

Inductive tab2_view :=
| Tab2 (fig_co2 : list CO2.row) (fig_growth : list growth_row)
| Tab2Info (msg : string).

Definition tab2 (filtered_co2 : list CO2.row) : outcome tab2_view :=
  if decide (0 < length filtered_co2)%nat then
    mret (Tab2 filtered_co2 (co2_growth filtered_co2))
  else
    mret (Tab2Info
      "📌 CO2 data is only available from 1958 onwards (when measurements began at Mauna Loa Observatory). Please adjust the year range to include years from 1958 or later.").

(** ** Tab 3: future projection (lines 313-320) *)

(** [list(range(a, b))] *)
Definition range (a b : Z) : list Z := seqZ a (b - a).

(** The script fixes the rate to 3.3 and the horizon to 2100; both are
    parameters here, and [tab3] passes the script's constants. *)
Definition projection_years (last_year horizon : Z) : list Z :=
  range last_year horizon.

Definition projected_rise
    (last_rise : Q) (last_year : Z) (current_rate : Q) (years : list Z)
  : list Q :=
  (λ year, last_rise + inject_Z (year - last_year) * current_rate)%Q <$> years.

Definition projection_df
    (last_rise : Q) (last_year : Z) (current_rate : Q) (horizon : Z)
  : list (Z * Q) :=
  let years := projection_years last_year horizon in
  zip years (projected_rise last_rise last_year current_rate years).

Inductive tab3_view :=
| Tab3 (fig_sea : list Sea.row) (fig_projection : list (Z * Q))
       (rise_by_2100_m : Q)
| Tab3Info (msg : string).

Definition tab3 (filtered_sea : list Sea.row) (c : controls)
  : outcome tab3_view :=
  if decide (0 < length filtered_sea)%nat then
    last_rise ← iloc (Sea.Sea_Level_mm <$> filtered_sea) (-1);
    let df := projection_df last_rise (year_range c).2 3.3 2100 in
    final ← iloc df.*2 (-1);
    mret (Tab3 filtered_sea df (final / 1000)%Q)
  else
    mret (Tab3Info
      "📌 Sea level data is only available from 1993 onwards (satellite era). Please adjust the year range to include years from 1993 or later.").

(** ** Tab 4: correlation (lines 341-367) *)

Record merged_row := {
  merged_Year : Z;
  merged_Temperature_Anomaly : Q;
  merged_CO2_ppm : Q
}.

(** [pd.merge(left, right, on='Year', how='inner')]: every left row paired
    with every right row of the same year, in the order of the left rows. *)
Definition merged_data (temp_data : list Temp.row) (co2_data : list CO2.row)
  : list merged_row :=
  l ← filter (λ r, Temp.Region r = "Global"%string) temp_data;
  (λ r, {| merged_Year := Temp.Year l;
           merged_Temperature_Anomaly := Temp.Temperature_Anomaly l;
           merged_CO2_ppm := CO2.CO2_ppm r |})
    <$> filter (λ r, CO2.Year r = Temp.Year l) co2_data.

Definition demean (x : list Q) : list Q :=
  let m := (sum x / inject_Z (Z.of_nat (length x)))%Q in
  (λ v, v - m)%Q <$> x.

Definition dot (a b : list Q) : Q := sum (zip_with Qmult a b).

(** [a.corr(b)] (Pearson) for two columns of one frame: the sum of the
    products of the deviations from the two means, over the product of the
    roots of the two sums of squared deviations.  pandas raises nothing
    here: with fewer than two rows the result is NaN, and so is the quotient
    0/0 of a column without variance.  (In binary64 the mean of a constant
    column need not be exact, and the rounding residue can stand in for the
    zero; rounding is not modelled, and no statement below rests on the
    value for such a column.) *)
Definition corr (a b : list Q) : option R :=
  if decide (length a < 2)%nat then None
  else
    let da := demean a in
    let db := demean b in
    if Qeq_dec (dot da da) 0 then None
    else if Qeq_dec (dot db db) 0 then None
    else Some (Q2R (dot da db)
               / (sqrt (Q2R (dot da da)) * sqrt (Q2R (dot db db))))%R.

Record tab4_view := {
  fig_corr : list merged_row;
  correlation : option R
}.

Definition tab4 (temp_data : list Temp.row) (co2_data : list CO2.row)
  : outcome tab4_view :=
  let m := merged_data temp_data co2_data in
  mret {| fig_corr := m;
          correlation := corr (merged_Temperature_Anomaly <$> m)
                              (merged_CO2_ppm <$> m) |}.

(** ** Download section (lines 407-440) *)

(** A download button offers the rows as CSV under a file name built from a
    stem and the year range. *)
Inductive download (A : Type) :=
| DownloadButton (stem : string) (years : Z * Z) (csv : list A)
| DownloadInfo (msg : string).
Arguments DownloadButton {A} stem years csv.
Arguments DownloadInfo {A} msg.

Definition download_temp (filtered_temp : list Temp.row) (c : controls)
  : download Temp.row :=
  DownloadButton "temperature_data" (year_range c) filtered_temp.

Definition download_co2 (filtered_co2 : list CO2.row) (c : controls)
  : download CO2.row :=
  if decide (0 < length filtered_co2)%nat
  then DownloadButton "co2_data" (year_range c) filtered_co2
  else DownloadInfo "No CO2 data available for selected years".

Definition download_sea (filtered_sea : list Sea.row) (c : controls)
  : download Sea.row :=
  if decide (0 < length filtered_sea)%nat
  then DownloadButton "sea_level_data" (year_range c) filtered_sea
  else DownloadInfo "No sea level data available for selected years".

(** ** The whole page, in script order *)

Record page := {
  page_indicators : indicators;
  page_tab1 : tab1_view;
  page_tab2 : tab2_view;
  page_tab3 : tab3_view;
  page_tab4 : tab4_view;
  page_download_temp : download Temp.row;
  page_download_co2 : download CO2.row;
  page_download_sea : download Sea.row
}.

Definition key_indicators
    (temp_data : list Temp.row) (filtered_co2 : list CO2.row)
    (filtered_sea : list Sea.row) (c : controls) : outcome indicators :=
  let g := global_temp_data temp_data c in
  m1 ← col1 g c;
  m2 ← col2 filtered_co2;
  m3 ← col3 filtered_sea;
  m4 ← col4 g m1.2;
  mret {| temp_metric := m1.1; co2_metric := m2;
          sea_metric := m3; rate_metric := m4 |}.

Definition dashboard
    (temp_data : list Temp.row) (co2_data : list CO2.row)
    (sea_data : list Sea.row) (c : controls) : outcome page :=
  let ft := filtered_temp temp_data c in
  let fc := filtered_co2 co2_data c in
  let fs := filtered_sea sea_data c in
  ind ← key_indicators temp_data fc fs c;
  t1 ← tab1 ft c;
  t2 ← tab2 fc;
  t3 ← tab3 fs c;
  t4 ← tab4 temp_data co2_data;
  mret {| page_indicators := ind;
          page_tab1 := t1; page_tab2 := t2; page_tab3 := t3; page_tab4 := t4;
          page_download_temp := download_temp ft c;
          page_download_co2 := download_co2 fc c;
          page_download_sea := download_sea fs c |}.

(** ** Data generator (lines 27-71) *)

(** [np.random.normal] draws one number per year and per table.  The
    generator is modelled for every outcome of the draws: [noise] gives the
    number drawn for the year at hand. *)
Record noise := {
  temp_noise : Z → Q;
  co2_noise : Z → Q;
  sea_noise : Z → Q
}.

Definition years : list Z := range 1880 2024.

Definition temp_anomaly (n : noise) : list Q :=
  (λ year, - 0.16 + inject_Z (year - 1880) * 0.008 + temp_noise n year)%Q
    <$> years.

(** [pd.DataFrame({'Year': ys, 'Temperature_Anomaly': xs,
    'Region': [region] * len(ys)})] *)
Definition temp_frame (ys : list Z) (xs : list Q) (region : string)
  : list Temp.row :=
  zip_with (λ y x, {| Temp.Year := y; Temp.Temperature_Anomaly := x;
                      Temp.Region := region |}) ys xs.

Definition regions : list string :=
  ["Northern Hemisphere"; "Southern Hemisphere"; "Arctic"; "Tropics"]%string.

Definition multiplier (region : string) : Q :=
  if decide (region = "Arctic"%string) then 1.2
  else if decide (region = "Southern Hemisphere"%string) then 0.9
  else 1.0.

Definition regional_data (n : noise) (region : string) : list Temp.row :=
  temp_frame years
    ((λ x, x * multiplier region)%Q <$> temp_anomaly n) region.

(** [pd.concat([temp_df, regional_data], ignore_index=True)] for each region
    in turn. *)
Definition temp_df (n : noise) : list Temp.row :=
  foldl (λ df region, df ++ regional_data n region)
    (temp_frame years (temp_anomaly n) "Global") regions.

Definition co2_years : list Z := range 1958 2024.

Definition co2_levels (n : noise) : list Q :=
  (λ year, 315 + inject_Z (year - 1958) * 1.8 + co2_noise n year)%Q
    <$> co2_years.

Definition co2_df (n : noise) : list CO2.row :=
  zip_with (λ y x, {| CO2.Year := y; CO2.CO2_ppm := x |})
    co2_years (co2_levels n).

Definition sea_years : list Z := range 1993 2024.

Definition sea_level (n : noise) : list Q :=
  (λ year, 0 + inject_Z (year - 1993) * 3.3 + sea_noise n year)%Q
    <$> sea_years.

Definition sea_df (n : noise) : list Sea.row :=
  zip_with (λ y x, {| Sea.Year := y; Sea.Sea_Level_mm := x |})
    sea_years (sea_level n).

Definition load_climate_data (n : noise)
  : list Temp.row * list CO2.row * list Sea.row :=
  (temp_df n, co2_df n, sea_df n).

(** ** Sidebar (lines 78-92) *)

(** [Series.min()] and [Series.max()] of an integer column; an empty column
    has none (pandas gives NaN, and [int] of it raises). *)
Definition column_min (x : list Z) : option Z :=
  match x with
  | [] => None
  | y :: rest => Some (foldl Z.min y rest)
  end.

Definition column_max (x : list Z) : option Z :=
  match x with
  | [] => None
  | y :: rest => Some (foldl Z.max y rest)
  end.

(** [Series.unique()]: the distinct values in order of first appearance. *)
Fixpoint unique {A} `{EqDecision A} (x : list A) : list A :=
  match x with
  | [] => []
  | v :: rest => v :: filter (λ w, w ≠ v) (unique rest)
  end.

Definition min_year (temp_data : list Temp.row) : option Z :=
  column_min (Temp.Year <$> temp_data).

Definition max_year (temp_data : list Temp.row) : option Z :=
  column_max (Temp.Year <$> temp_data).

Definition available_regions (temp_data : list Temp.row) : list string :=
  unique (Temp.Region <$> temp_data).

(** What the two widgets can return: the slider a pair inside its bounds
    with start <= end, the multiselect a list of its options. *)
Definition sidebar (temp_data : list Temp.row) (c : controls) : Prop :=
  ∃ lo hi, min_year temp_data = Some lo ∧ max_year temp_data = Some hi
    ∧ lo ≤ (year_range c).1 ∧ (year_range c).1 ≤ (year_range c).2
    ∧ (year_range c).2 ≤ hi
    ∧ ∀ region, region ∈ selected_regions c →
                region ∈ available_regions temp_data.

(** The widgets' initial values. *)
Definition default_controls (hi : Z) : controls :=
  {| year_range := (1980, hi);
     selected_regions := ["Global"; "Arctic"]%string |}.

(** The noise-free draws. *)
Definition no_noise : noise :=
  {| temp_noise := λ _, 0%Q; co2_noise := λ _, 0%Q; sea_noise := λ _, 0%Q |}.

(** The controls that keep what both [c1] and [c2] keep. *)
Definition narrow (c1 c2 : controls) : controls :=
  {| year_range := (Z.max (year_range c1).1 (year_range c2).1,
                    Z.min (year_range c1).2 (year_range c2).2);
     selected_regions :=
       filter (λ region, region ∈ selected_regions c2) (selected_regions c1) |}.

(** ** Comparing float columns up to the value of the rationals *)

Definition cell_eq : relation (option Q) := option_Forall2 Qeq.

Definition series_eq : relation (list (Z * Q)) :=
  Forall2 (λ p q, p.1 = q.1 ∧ (p.2 == q.2)%Q).

(** ** Sample tables

    Small tables in the shape [load_climate_data] produces (rows by region
    block, years increasing inside a block), with the noise left out. *)

Definition sample_temp : list Temp.row :=
  [ {| Temp.Year := 1988; Temp.Temperature_Anomaly := 0.70; Temp.Region := "Global" |};
    {| Temp.Year := 1989; Temp.Temperature_Anomaly := 0.72; Temp.Region := "Global" |};
    {| Temp.Year := 1990; Temp.Temperature_Anomaly := 0.72; Temp.Region := "Global" |};
    {| Temp.Year := 1991; Temp.Temperature_Anomaly := 0.76; Temp.Region := "Global" |};
    {| Temp.Year := 1988; Temp.Temperature_Anomaly := 0.84; Temp.Region := "Arctic" |};
    {| Temp.Year := 1989; Temp.Temperature_Anomaly := 0.864; Temp.Region := "Arctic" |};
    {| Temp.Year := 1990; Temp.Temperature_Anomaly := 0.864; Temp.Region := "Arctic" |};
    {| Temp.Year := 1991; Temp.Temperature_Anomaly := 0.912; Temp.Region := "Arctic" |} ].

Definition sample_co2 : list CO2.row :=
  [ {| CO2.Year := 1958; CO2.CO2_ppm := 315.0 |};
    {| CO2.Year := 1959; CO2.CO2_ppm := 316.8 |};
    {| CO2.Year := 1960; CO2.CO2_ppm := 318.6 |} ].

Definition sample_sea : list Sea.row :=
  [ {| Sea.Year := 1993; Sea.Sea_Level_mm := 0 |};
    {| Sea.Year := 1994; Sea.Sea_Level_mm := 3.3 |} ].

Definition sample_controls : controls :=
  {| year_range := (1989, 1991); selected_regions := ["Global"; "Arctic"]%string |}.

Definition linear_temp : list Temp.row :=
  [ {| Temp.Year := 1958; Temp.Temperature_Anomaly := 0.464; Temp.Region := "Global" |};
    {| Temp.Year := 1959; Temp.Temperature_Anomaly := 0.472; Temp.Region := "Global" |};
    {| Temp.Year := 1960; Temp.Temperature_Anomaly := 0.480; Temp.Region := "Global" |};
    {| Temp.Year := 1960; Temp.Temperature_Anomaly := 0.576; Temp.Region := "Arctic" |} ].

(** * Properties *)

(** ** Generic facts about masks *)

Section masks.
Context {A : Type} (P : A → Prop) `{!∀ x, Decision (P x)}.

Lemma filter_idem (l : list A) : filter P (filter P l) = filter P l.
Proof. rewrite list_filter_filter. apply list_filter_iff. tauto. Qed.

Lemma filter_none (l : list A) : (∀ x, x ∈ l → ¬ P x) → filter P l = [].
Proof.
  induction l as [|x l IH]; intros Hno; [done|].
  rewrite filter_cons_False by (apply Hno; left).
  apply IH. intros y Hy. apply Hno. by right.
Qed.

Lemma Forall_filter_mask (l : list A) : Forall P (filter P l).
Proof.
  apply Forall_forall. intros x Hx.
  by apply list_elem_of_filter in Hx as [? _].
Qed.

(** The mask keeps every row that passes: any subsequence of passing rows
    is a subsequence of the masked table. *)
Lemma sublist_filter_max (k l : list A) :
  k `sublist_of` l → Forall P k → k `sublist_of` filter P l.
Proof.
  induction 1 as [|x k l Hkl IH|x k l Hkl IH]; intros HP.
  - constructor.
  - apply Forall_cons in HP as [Hx HP].
    rewrite filter_cons_True by done. constructor. by apply IH.
  - rewrite filter_cons. destruct (decide (P x)); [constructor|]; by apply IH.
Qed.
End masks.

Lemma iloc_first {A} (x : A) (s : list A) : iloc (x :: s) 0 = Ok x.
Proof.
  unfold iloc. cbv zeta. cbn [length].
  destruct (decide (0 < 0)) as [?|_]; [lia|].
  destruct (decide _) as [_|Hn]; [done | lia].
Qed.

Lemma iloc_last {A} (s : list A) (x : A) :
  last s = Some x → iloc s (-1) = Ok x.
Proof.
  intros Hl. unfold iloc. cbv zeta.
  assert (0 < length s)%nat as Hn.
  { destruct s; [done | simpl; lia]. }
  destruct (decide (-1 < 0)) as [_|?]; [|lia].
  destruct (decide _) as [_|?]; [|lia].
  rewrite last_lookup in Hl.
  replace (Z.to_nat (Z.of_nat (length s) + -1)) with (pred (length s)) by lia.
  by rewrite Hl.
Qed.

Lemma iloc_empty {A} (i : Z) : iloc (@nil A) i = Raised IndexError.
Proof.
  unfold iloc. cbv zeta. cbn [length].
  destruct (decide (0 ≤ _ < _)) as [Hr|_]; [|done].
  destruct (decide (i < 0)); lia.
Qed.

Lemma last_is_Some {A} (s : list A) : (0 < length s)%nat → is_Some (last s).
Proof.
  intros Hn. rewrite last_lookup. apply lookup_lt_is_Some_2. lia.
Qed.

(** ** Filter engine *)

(** C1. [filtered_temp] (the spec's filterTemperature) is the subsequence of
    the table made of exactly the rows whose year lies in the range and
    whose region is selected: it is a subsequence of the table (order kept),
    a row is in it iff it is in the table and passes both tests, every
    subsequence of passing rows is a subsequence of it, and it is no longer
    than the table. *)
Theorem filtered_temp_subsequence (temp_data : list Temp.row) (c : controls) :
  let keep r := (year_range c).1 ≤ Temp.Year r ≤ (year_range c).2
                ∧ Temp.Region r ∈ selected_regions c in
  filtered_temp temp_data c `sublist_of` temp_data
  ∧ (∀ r, r ∈ filtered_temp temp_data c ↔ r ∈ temp_data ∧ keep r)
  ∧ (∀ k, k `sublist_of` temp_data → Forall keep k →
          k `sublist_of` filtered_temp temp_data c)
  ∧ (length (filtered_temp temp_data c) ≤ length temp_data)%nat.
Proof.
  intros keep. unfold filtered_temp.
  split; [apply sublist_filter|].
  split; [|split; [|apply length_filter]].
  - intros r. rewrite list_elem_of_filter. unfold keep. tauto.
  - intros k Hk HP. apply sublist_filter_max; [done|].
    eapply Forall_impl; [exact HP|]. unfold keep. intros; tauto.
Qed.

(** The sample table, years 1989-1990, Arctic only: two rows, in table
    order. *)
Example filtered_temp_sample :
  filtered_temp sample_temp
    {| year_range := (1989, 1990); selected_regions := ["Arctic"]%string |}
  = [ {| Temp.Year := 1989; Temp.Temperature_Anomaly := 0.864;
         Temp.Region := "Arctic" |};
      {| Temp.Year := 1990; Temp.Temperature_Anomaly := 0.864;
         Temp.Region := "Arctic" |} ].
Proof. reflexivity. Qed.

(** An empty selection keeps no temperature row; the year-only masks are
    not affected by it. *)
Example empty_selection_sample :
  filtered_temp sample_temp
    {| year_range := (1880, 2023); selected_regions := [] |} = []
  ∧ filtered_co2 sample_co2
    {| year_range := (1959, 2023); selected_regions := [] |}
    = [ {| CO2.Year := 1959; CO2.CO2_ppm := 316.8 |};
        {| CO2.Year := 1960; CO2.CO2_ppm := 318.6 |} ].
Proof. split; reflexivity. Qed.

(** C5. Filtering is idempotent: masking an already masked table with the
    same year range and region selection changes nothing, for the
    temperature table and for the two year-only series. *)
Theorem filters_idempotent
    (temp_data : list Temp.row) (co2_data : list CO2.row)
    (sea_data : list Sea.row) (c : controls) :
  filtered_temp (filtered_temp temp_data c) c = filtered_temp temp_data c
  ∧ filtered_co2 (filtered_co2 co2_data c) c = filtered_co2 co2_data c
  ∧ filtered_sea (filtered_sea sea_data c) c = filtered_sea sea_data c.
Proof.
  unfold filtered_temp, filtered_co2, filtered_sea.
  split; [|split]; apply filter_idem.
Qed.

(** C10. With an inverted year range (start > end) the three masks return
    the empty table; nothing is raised. *)
Theorem inverted_range_empty
    (temp_data : list Temp.row) (co2_data : list CO2.row)
    (sea_data : list Sea.row) (c : controls) :
  (year_range c).2 < (year_range c).1 →
  filtered_temp temp_data c = []
  ∧ filtered_co2 co2_data c = []
  ∧ filtered_sea sea_data c = [].
Proof.
  intros Hinv. unfold filtered_temp, filtered_co2, filtered_sea.
  split; [|split]; apply filter_none; intros r _; lia.
Qed.

Lemma inverted_range_empty_witness :
  let c := {| year_range := (2000, 1999);
              selected_regions := ["Global"]%string |} in
  (year_range c).2 < (year_range c).1
  ∧ filtered_temp sample_temp c = []
  ∧ filtered_co2 sample_co2 c = []
  ∧ filtered_sea sample_sea c = [].
Proof.
  intros c. split; [simpl; lia|].
  apply (inverted_range_empty sample_temp sample_co2 sample_sea c).
  simpl. lia.
Defined.

(** ** The guarded widgets never index out of bounds *)

Lemma nonempty_guard {A B} (s : list A) (x y : B) :
  s ≠ [] → (if decide (0 < length s)%nat then x else y) = x.
Proof.
  intros Hs. destruct (decide _) as [_|Hn]; [done|].
  destruct s; [done | simpl in Hn; lia].
Qed.

Lemma iloc_fmap_last {A B} (f : A → B) (s : list A) (x : A) :
  last s = Some x → iloc (f <$> s) (-1) = Ok (f x).
Proof. intros Hl. apply iloc_last. by rewrite fmap_last, Hl. Qed.

Lemma col1_nonempty (first : Temp.row) rest latest c :
  last (first :: rest) = Some latest →
  col1 (first :: rest) c =
    Ok (Metric "Global Temp Anomaly" (Temp.Temperature_Anomaly latest)
          (ChangeSince (Temp.Temperature_Anomaly latest
                        - Temp.Temperature_Anomaly first) (year_range c).1),
        Some (Temp.Temperature_Anomaly latest, Temp.Temperature_Anomaly first)).
Proof.
  intros Hl. unfold col1. rewrite nonempty_guard by done.
  rewrite (iloc_fmap_last _ _ _ Hl). cbn [mbind outcome_bind].
  rewrite fmap_cons, iloc_first. done.
Qed.

Lemma col2_ok (fc : list CO2.row) : ∃ m, col2 fc = Ok m.
Proof.
  destruct fc as [|r fc]; [by eexists|].
  destruct (last_is_Some (r :: fc)) as [l Hl]; [simpl; lia|].
  unfold col2. rewrite nonempty_guard by done.
  rewrite (iloc_fmap_last _ _ _ Hl). cbn [mbind outcome_bind].
  rewrite fmap_cons, iloc_first. by eexists.
Qed.

Lemma col3_ok (fs : list Sea.row) : ∃ m, col3 fs = Ok m.
Proof.
  destruct fs as [|r fs]; [by eexists|].
  destruct (last_is_Some (r :: fs)) as [l Hl]; [simpl; lia|].
  unfold col3. rewrite nonempty_guard by done.
  rewrite (iloc_fmap_last _ _ _ Hl). by eexists.
Qed.

Lemma tab1_ok (ft : list Temp.row) c : ∃ v, tab1 ft c = Ok v.
Proof.
  destruct ft as [|r ft]; [by eexists|].
  unfold tab1. rewrite nonempty_guard by done.
  destruct (decide (_ ∈ _)); [by eexists|].
  rewrite fmap_cons, iloc_first. by eexists.
Qed.

Lemma tab2_ok (fc : list CO2.row) : ∃ v, tab2 fc = Ok v.
Proof. unfold tab2. destruct (decide _); by eexists. Qed.

(** The four indicators, as a function of the Global rows in range. *)
Lemma key_indicators_ok temp_data fc fs c :
  ∃ ind, key_indicators temp_data fc fs c = Ok ind
    ∧ match global_temp_data temp_data c with
      | [] =>
          temp_metric ind = MetricNA "Global Temp Anomaly" "Select 'Global' region"
          ∧ rate_metric ind = MetricNA "Warming Rate" "Select 'Global' region"
      | first :: rest =>
          ∃ latest, last (first :: rest) = Some latest
            ∧ temp_metric ind =
                Metric "Global Temp Anomaly" (Temp.Temperature_Anomaly latest)
                  (ChangeSince (Temp.Temperature_Anomaly latest
                                - Temp.Temperature_Anomaly first)
                               (year_range c).1)
            ∧ ∃ note, rate_metric ind =
                Metric "Warming Rate"
                  (avg_increase (Temp.Temperature_Anomaly latest)
                                (Temp.Temperature_Anomaly first)
                                (length (first :: rest)))
                  note
      end.
Proof.
  unfold key_indicators. cbv zeta.
  destruct (col2_ok fc) as [m2 ->], (col3_ok fs) as [m3 ->].
  destruct (global_temp_data temp_data c) as [|first rest] eqn:Hg.
  - eexists. split; [reflexivity|]. done.
  - destruct (last_is_Some (first :: rest)) as [l Hl]; [simpl; lia|].
    rewrite (col1_nonempty _ _ _ _ Hl). cbn [mbind outcome_bind snd fst].
    unfold col4. rewrite nonempty_guard by done.
    eexists. split; [reflexivity|]. exists l. split; [done|].
    split; [done|]. by eexists.
Qed.

(** ** Metric summarizer *)

(** C6. The warming rate shown is (latest anomaly - first anomaly) / count
    * 10 over the Global rows in range, count being their number; it is
    computed only when count > 0, and with count = 0 the widget shows N/A
    and no quotient is formed.  The indicator row never raises. *)
Theorem warming_rate_guarded
    (temp_data : list Temp.row) (fc : list CO2.row) (fs : list Sea.row)
    (c : controls) :
  ∃ ind, key_indicators temp_data fc fs c = Ok ind
    ∧ let g := global_temp_data temp_data c in
      match head g, last g with
      | Some first, Some latest =>
          (0 < length g)%nat
          ∧ ∃ note, rate_metric ind =
              Metric "Warming Rate"
                ((Temp.Temperature_Anomaly latest
                  - Temp.Temperature_Anomaly first)
                 / inject_Z (Z.of_nat (length g)) * 10)%Q
                note
      | _, _ =>
          length g = 0%nat
          ∧ rate_metric ind = MetricNA "Warming Rate" "Select 'Global' region"
      end.
Proof.
  destruct (key_indicators_ok temp_data fc fs c) as (ind & Hind & Hshape).
  exists ind. split; [done|]. cbv zeta.
  destruct (global_temp_data temp_data c) as [|first rest].
  - cbn [head last]. by destruct Hshape.
  - destruct Hshape as (latest & Hl & _ & note & Hrate).
    cbn [head]. rewrite Hl. split; [simpl; lia|].
    exists note. exact Hrate.
Qed.

(** On the sample table and the range 1989-1991 the Global rows are three,
    from 0.72 to 0.76: the rate is 0.04 / 3 * 10. *)
Example warming_rate_sample :
  ∃ ind, key_indicators sample_temp [] [] sample_controls = Ok ind
    ∧ ∃ rate, rate_metric ind = Metric "Warming Rate" rate (Note "Stable")
        ∧ (rate == 4 # 30)%Q.
Proof. eexists. split; [reflexivity|]. eexists. split; [reflexivity|]. done. Qed.

(** With the range 1989-1991 the Global indicator of the sample reads 0.76,
    up 0.04 since 1989, whatever is selected. *)
Example key_indicators_sample :
  ∃ ind, key_indicators sample_temp [] [] sample_controls = Ok ind
    ∧ ∃ v d, temp_metric ind = Metric "Global Temp Anomaly" v (ChangeSince d 1989)
        ∧ (v == 0.76)%Q ∧ (d == 0.04)%Q.
Proof.
  eexists. split; [reflexivity|]. eexists _, _. split; [reflexivity|]. done.
Qed.

(** ** Empty results are a display state, not a fault *)

(** C8. When every row of a series lies outside the year range (a CO2 range
    entirely before 1958, say), the mask returns the empty table, and each
    consumer of that table answers with its "no data" state: the metric is
    N/A with its hint, the tab shows its guidance message, the download
    offers a notice; with both series out of range the whole page is
    produced, nothing is raised. *)
Theorem out_of_domain_is_no_data
    (temp_data : list Temp.row) (co2_data : list CO2.row)
    (sea_data : list Sea.row) (c : controls) :
  let outside y := y < (year_range c).1 ∨ (year_range c).2 < y in
  ((∀ r, r ∈ co2_data → outside (CO2.Year r)) →
     filtered_co2 co2_data c = []
     ∧ col2 (filtered_co2 co2_data c)
       = Ok (MetricNA "CO2 Levels" "Data starts from 1958")
     ∧ (∃ msg, tab2 (filtered_co2 co2_data c) = Ok (Tab2Info msg))
     ∧ download_co2 (filtered_co2 co2_data c) c
       = DownloadInfo "No CO2 data available for selected years")
  ∧ ((∀ r, r ∈ sea_data → outside (Sea.Year r)) →
     filtered_sea sea_data c = []
     ∧ col3 (filtered_sea sea_data c)
       = Ok (MetricNA "Sea Level Rise" "Data starts from 1993")
     ∧ (∃ msg, tab3 (filtered_sea sea_data c) c = Ok (Tab3Info msg))
     ∧ download_sea (filtered_sea sea_data c) c
       = DownloadInfo "No sea level data available for selected years")
  ∧ ((∀ r, r ∈ co2_data → outside (CO2.Year r)) →
     (∀ r, r ∈ sea_data → outside (Sea.Year r)) →
     ∃ p, dashboard temp_data co2_data sea_data c = Ok p
       ∧ co2_metric (page_indicators p)
         = MetricNA "CO2 Levels" "Data starts from 1958"
       ∧ sea_metric (page_indicators p)
         = MetricNA "Sea Level Rise" "Data starts from 1993"
       ∧ (∃ msg, page_tab2 p = Tab2Info msg)
       ∧ (∃ msg, page_tab3 p = Tab3Info msg)
       ∧ (∃ msg, page_download_co2 p = DownloadInfo msg)
       ∧ (∃ msg, page_download_sea p = DownloadInfo msg)).
Proof.
  intros outside.
  assert ((∀ r, r ∈ co2_data → outside (CO2.Year r)) →
          filtered_co2 co2_data c = []) as Hco2.
  { intros Hout. apply filter_none. intros r Hr.
    specialize (Hout r Hr). unfold outside in Hout. lia. }
  assert ((∀ r, r ∈ sea_data → outside (Sea.Year r)) →
          filtered_sea sea_data c = []) as Hsea.
  { intros Hout. apply filter_none. intros r Hr.
    specialize (Hout r Hr). unfold outside in Hout. lia. }
  split; [|split].
  - intros Hout. rewrite (Hco2 Hout). repeat split; by eexists.
  - intros Hout. rewrite (Hsea Hout). repeat split; by eexists.
  - intros Hc Hs. unfold dashboard. cbv zeta.
    rewrite (Hco2 Hc), (Hsea Hs).
    destruct (key_indicators_ok temp_data [] [] c) as (ind & Hind & _).
    pose proof Hind as Hind'.
    unfold key_indicators in Hind'. cbv zeta in Hind'.
    destruct (col1 _ c) as [m1|]; [|done].
    cbn [col2 col3 length mbind outcome_bind mret outcome_ret] in Hind'.
    rewrite Hind. cbn [mbind outcome_bind].
    destruct (tab1_ok (filtered_temp temp_data c) c) as [t1 ->].
    cbn [mbind outcome_bind].
    eexists. split; [reflexivity|].
    cbn [page_indicators page_tab2 page_tab3 page_download_co2
         page_download_sea].
    destruct (col4 _ _) as [m4|]; [|done].
    cbn [mbind outcome_bind mret outcome_ret] in Hind'.
    injection Hind' as <-.
    repeat split; by eexists.
Qed.

Lemma out_of_domain_witness :
  ∃ p, dashboard sample_temp sample_co2 sample_sea
         {| year_range := (1900, 1950); selected_regions := ["Global"]%string |}
       = Ok p
    ∧ co2_metric (page_indicators p)
      = MetricNA "CO2 Levels" "Data starts from 1958"
    ∧ sea_metric (page_indicators p)
      = MetricNA "Sea Level Rise" "Data starts from 1993"
    ∧ (∃ msg, page_tab2 p = Tab2Info msg)
    ∧ (∃ msg, page_tab3 p = Tab3Info msg)
    ∧ (∃ msg, page_download_co2 p = DownloadInfo msg)
    ∧ (∃ msg, page_download_sea p = DownloadInfo msg).
Proof.
  apply (out_of_domain_is_no_data sample_temp sample_co2 sample_sea
           {| year_range := (1900, 1950);
              selected_regions := ["Global"]%string |}).
  - intros r Hr. cbn -[elem_of] in *.
    repeat (apply elem_of_cons in Hr as [->|Hr]; [cbn; lia|]).
    by apply elem_of_nil in Hr.
  - intros r Hr. cbn -[elem_of] in *.
    repeat (apply elem_of_cons in Hr as [->|Hr]; [cbn; lia|]).
    by apply elem_of_nil in Hr.
Defined.

(** ** Decade averages *)

Lemma group_keys_elem (ks : list Z) (k : Z) : k ∈ group_keys ks ↔ k ∈ ks.
Proof.
  unfold group_keys. rewrite merge_sort_Permutation. apply elem_of_remove_dups.
Qed.

Lemma group_keys_NoDup (ks : list Z) : NoDup (group_keys ks).
Proof.
  unfold group_keys. rewrite merge_sort_Permutation. apply NoDup_remove_dups.
Qed.

Lemma group_keys_sorted (ks : list Z) : StronglySorted Z.le (group_keys ks).
Proof. unfold group_keys. apply (StronglySorted_merge_sort Z.le). Qed.

Lemma decade_summary_keys (seq : list Temp.row) :
  (decade_summary seq).*1 = group_keys (Decade <$> seq).
Proof.
  unfold decade_summary, groupby. rewrite <- !list_fmap_compose.
  rewrite <- (list_fmap_id (group_keys _)) at 2. by apply list_fmap_ext.
Qed.

Lemma filter_nonempty_elem {A} (P : A → Prop) `{!∀ x, Decision (P x)}
    (l : list A) :
  filter P l ≠ [] ↔ ∃ x, x ∈ l ∧ P x.
Proof.
  split.
  - destruct (filter P l) as [|x k] eqn:Hf; [done|]. intros _.
    exists x. assert (x ∈ filter P l) as Hx by (rewrite Hf; left).
    apply list_elem_of_filter in Hx. tauto.
  - intros (x & Hx & HP) Hf.
    assert (x ∈ filter P l) as Hin by (apply list_elem_of_filter; done).
    rewrite Hf in Hin. by apply elem_of_nil in Hin.
Qed.

Lemma mean_nonempty (x : list Q) :
  x ≠ [] → mean x = Some (sum x / inject_Z (Z.of_nat (length x)))%Q.
Proof. by destruct x. Qed.

Lemma decade_summary_elem (seq : list Temp.row) (d : Z) (m : option Q) :
  (d, m) ∈ decade_summary seq ↔
    filter (λ r, Decade r = d) seq ≠ []
    ∧ m = mean (Temp.Temperature_Anomaly <$> filter (λ r, Decade r = d) seq).
Proof.
  unfold decade_summary, groupby. rewrite <- list_fmap_compose.
  rewrite list_elem_of_fmap. setoid_rewrite group_keys_elem.
  setoid_rewrite list_elem_of_fmap. rewrite filter_nonempty_elem.
  split.
  - intros (k & Heq & r & -> & Hr). cbn in Heq. injection Heq as -> ->.
    split; [by exists r | done].
  - intros ((r & Hr & <-) & ->). exists (Decade r). split; [done|].
    by exists r.
Qed.

(** C7. [decade_summary] (the spec's decadeAverage) puts every row in the
    group of exactly one decade, the key being floor(year/10)*10: a multiple
    of 10 with key <= year < key + 10.  Its result has one row per decade
    that holds at least one input row, carrying the mean anomaly of that
    decade's rows; keys are distinct and increasing, and a decade without
    rows has no entry (it is not zero-filled). *)
Theorem decade_summary_groups (seq : list Temp.row) :
  let members d := filter (λ r, Decade r = d) seq in
  (∀ r, r ∈ seq →
     Decade r = 10 * (Temp.Year r `div` 10)
     ∧ (10 | Decade r)
     ∧ Decade r ≤ Temp.Year r < Decade r + 10
     ∧ Decade r ∈ (decade_summary seq).*1
     ∧ ∀ d, r ∈ members d ↔ d = Decade r)
  ∧ NoDup (decade_summary seq).*1
  ∧ StronglySorted Z.le (decade_summary seq).*1
  ∧ (∀ d m, (d, m) ∈ decade_summary seq ↔
       members d ≠ []
       ∧ m = Some (sum (Temp.Temperature_Anomaly <$> members d)
                   / inject_Z (Z.of_nat (length (members d))))%Q)
  ∧ (∀ d, members d = [] → d ∉ (decade_summary seq).*1).
Proof.
  intros members. rewrite decade_summary_keys.
  split; [|split; [apply group_keys_NoDup|split; [apply group_keys_sorted|split]]].
  - intros r Hr. unfold Decade.
    pose proof (Z.div_mod (Temp.Year r) 10 ltac:(lia)) as Hdm.
    pose proof (Z.mod_pos_bound (Temp.Year r) 10 ltac:(lia)) as Hb.
    split; [lia|]. split; [by apply Z.divide_factor_r|]. split; [lia|].
    split.
    + apply group_keys_elem. by apply (list_elem_of_fmap_2 Decade).
    + intros d. unfold members. rewrite list_elem_of_filter.
      unfold Decade. split; [intros [<- _]; done | intros ->; done].
  - intros d m. rewrite decade_summary_elem. fold (members d).
    split; intros [Hne ->]; (split; [done|]).
    + rewrite mean_nonempty; [by rewrite length_fmap|].
      by destruct (members d).
    + rewrite mean_nonempty; [by rewrite length_fmap|].
      by destruct (members d).
  - intros d Hd Hin. rewrite group_keys_elem in Hin.
    apply list_elem_of_fmap in Hin as (r & -> & Hr).
    assert (r ∈ members (Decade r)) as Hm
      by (apply list_elem_of_filter; done).
    rewrite Hd in Hm. by apply elem_of_nil in Hm.
Qed.

(** Rows of 1989, 1990 and 1991 fall in two decades; the 1990s bar is the
    mean of the two later rows. *)
Example decade_summary_sample :
  Forall2 (λ p q, p.1 = q.1 ∧ cell_eq p.2 q.2)
    (decade_summary (global_temp_data sample_temp sample_controls))
    [(1980, Some 0.72%Q); (1990, Some 0.74%Q)].
Proof.
  vm_compute. repeat constructor.
Qed.

(** ** CO2 growth rate *)

Lemma length_diff_from (prev : Q) (x : list Q) :
  length (diff_from prev x) = length x.
Proof. revert prev. induction x as [|v x IH]; intros prev; simpl; auto. Qed.

Lemma length_diff (x : list Q) : length (diff x) = length x.
Proof. destruct x; simpl; [done|]. by rewrite length_diff_from. Qed.

Lemma diff_from_lookup (prev : Q) (x : list Q) (i : nat) (a b : Q) :
  (prev :: x) !! i = Some a → x !! i = Some b →
  diff_from prev x !! i = Some (Some (b - a)%Q).
Proof.
  revert prev i. induction x as [|v x IH]; intros prev i Ha Hb; [done|].
  destruct i as [|i]; simpl in *.
  - by injection Ha as ->; injection Hb as ->.
  - by apply IH.
Qed.

Lemma diff_lookup_S (x : list Q) (i : nat) (a b : Q) :
  x !! i = Some a → x !! S i = Some b →
  diff x !! S i = Some (Some (b - a)%Q).
Proof.
  destruct x as [|v x]; [done|]. intros Ha Hb. simpl in *.
  by apply diff_from_lookup.
Qed.

Lemma omap_diff_from_length (prev : Q) (x : list Q) :
  length (omap id (diff_from prev x)) = length x.
Proof.
  revert prev. induction x as [|v x IH]; intros prev; csimpl; [done|].
  by rewrite IH.
Qed.

Lemma omap_via_fmap {A B} (f : A → option B) (l : list A) :
  omap f l = omap id (f <$> l).
Proof.
  induction l as [|x l IH]; csimpl; [done|].
  destruct (f x); csimpl; by rewrite IH.
Qed.

Lemma growth_rate_column (fc : list CO2.row) :
  Growth_Rate <$> co2_growth fc = diff (CO2.CO2_ppm <$> fc).
Proof.
  unfold co2_growth.
  assert (∀ (rows : list CO2.row) (g : list (option Q)),
    length g = length rows →
    Growth_Rate <$> zip_with (λ r g, {| growth_Year := CO2.Year r;
                                        growth_CO2_ppm := CO2.CO2_ppm r;
                                        Growth_Rate := g |}) rows g = g) as Hzip.
  { induction rows as [|r rows IH]; intros [|g gs] Hlen; try done.
    simpl in *. f_equal. apply IH. lia. }
  apply Hzip. by rewrite length_diff, length_fmap.
Qed.

(** C3, as the code has it.  The Growth_Rate column keeps the length of its
    input: its first cell is NaN, and every later cell is the value of its
    row minus the value of the row before.  So the cells that hold a number
    are one fewer than the rows (none for zero or one row), and on the
    noise-free points (1958, 315.0), (1959, 316.8), (1960, 318.6) the column
    reads NaN, 1.8, 1.8. *)
Theorem growth_rate_first_differences (fc : list CO2.row) :
  length (co2_growth fc) = length fc
  ∧ Growth_Rate <$> co2_growth fc = diff (CO2.CO2_ppm <$> fc)
  ∧ (∀ g, co2_growth fc !! 0%nat = Some g → Growth_Rate g = None)
  ∧ (∀ i a b, fc !! i = Some a → fc !! S i = Some b →
       Growth_Rate <$> co2_growth fc !! S i
       = Some (Some (CO2.CO2_ppm b - CO2.CO2_ppm a)%Q))
  ∧ length (omap Growth_Rate (co2_growth fc)) = (length fc - 1)%nat
  ∧ Forall2 cell_eq (Growth_Rate <$> co2_growth sample_co2)
      [None; Some 1.8%Q; Some 1.8%Q].
Proof.
  pose proof (growth_rate_column fc) as Hcol.
  split; [|split; [done|split; [|split; [|split]]]].
  - rewrite <- (length_fmap Growth_Rate), Hcol, length_diff.
    apply length_fmap.
  - intros g Hg.
    assert ((Growth_Rate <$> co2_growth fc) !! 0%nat = Some (Growth_Rate g))
      as H0 by (by rewrite list_lookup_fmap, Hg).
    rewrite Hcol in H0. destruct fc as [|r fc]; [done|].
    simpl in H0. by injection H0 as <-.
  - intros i a b Ha Hb. rewrite <- list_lookup_fmap, Hcol.
    apply diff_lookup_S; by rewrite list_lookup_fmap, ?Ha, ?Hb.
  - rewrite omap_via_fmap, Hcol. destruct fc as [|r fc]; [done|].
    csimpl. rewrite omap_diff_from_length, length_fmap. lia.
  - vm_compute. repeat constructor.
Qed.

(** The claim as the spec words it fails on the three noise-free points: the
    column has three cells, not two, and it is not the list 1.8, 1.8. *)
Lemma growth_rate_keeps_length :
  length (Growth_Rate <$> co2_growth sample_co2) ≠ (length sample_co2 - 1)%nat
  ∧ ¬ Forall2 cell_eq (Growth_Rate <$> co2_growth sample_co2)
        [Some 1.8%Q; Some 1.8%Q].
Proof.
  split.
  - vm_compute. lia.
  - intros H. apply Forall2_length in H. vm_compute in H. lia.
Qed.

(** ** Projection *)

Lemma zip_fmap_diag {A B} (f : A → B) (l : list A) :
  zip l (f <$> l) = (λ x, (x, f x)) <$> l.
Proof. induction l as [|x l IH]; csimpl; [done|]. by rewrite IH. Qed.

Lemma projection_df_lookup
    (last_rise : Q) (last_year : Z) (rate : Q) (horizon : Z)
    (i : nat) (row : Z * Q) :
  projection_df last_rise last_year rate horizon !! i = Some row ↔
    Z.of_nat i < horizon - last_year
    ∧ row = (last_year + Z.of_nat i,
             (last_rise + inject_Z (last_year + Z.of_nat i - last_year) * rate)%Q).
Proof.
  unfold projection_df, projected_rise, projection_years, range. cbv zeta.
  rewrite zip_fmap_diag, list_lookup_fmap.
  destruct (seqZ last_year (horizon - last_year) !! i) as [y|] eqn:Hy.
  - apply lookup_seqZ in Hy as [-> Hi]. simpl. split.
    + by intros [= <-].
    + by intros [_ ->].
  - simpl. split; [done|]. intros [Hi _].
    by rewrite lookup_seqZ_lt in Hy.
Qed.

(** C2, as the code has it.  The projection starts at the last known year
    itself: row i is the year last_year + i, none later than the horizon,
    and its value is last_rise + (year - last_year) * rate; every year from
    the last known one up to the one before the horizon has its row.  With
    last known point (2023, 100.0), rate 3.3 and horizon 2025 the rows begin
    (2023, 100.0), (2024, 103.3). *)
Theorem projection_starts_at_last_year
    (last_rise : Q) (last_year : Z) (rate : Q) (horizon : Z) :
  let df := projection_df last_rise last_year rate horizon in
  (∀ (i : nat) year v, df !! i = Some (year, v) →
     year = last_year + Z.of_nat i
     ∧ year ≤ horizon
     ∧ v = (last_rise + inject_Z (year - last_year) * rate)%Q)
  ∧ (∀ year, last_year ≤ year < horizon →
       (year, (last_rise + inject_Z (year - last_year) * rate)%Q) ∈ df)
  ∧ (last_year < horizon →
       ∃ v, df !! 0%nat = Some (last_year, v) ∧ (v == last_rise)%Q)
  ∧ ∃ rest, series_eq (projection_df 100 2023 3.3 2025)
              ((2023, 100%Q) :: (2024, 103.3%Q) :: rest).
Proof.
  intros df. unfold df. split; [|split; [|split]].
  - intros i year v Hrow. apply projection_df_lookup in Hrow as [Hi [= -> ->]].
    split; [done|]. split; [lia|done].
  - intros year Hy. apply list_elem_of_lookup.
    exists (Z.to_nat (year - last_year)). apply projection_df_lookup.
    split; [lia|]. repeat f_equal; lia.
  - intros Hlt.
    exists (last_rise + inject_Z (last_year - last_year) * rate)%Q. split.
    + apply projection_df_lookup. split; [lia|]. repeat f_equal; lia.
    + rewrite Z.sub_diag. unfold inject_Z. ring.
  - exists []. vm_compute. repeat constructor.
Qed.

(** The spec's example fails on the code: the first projected year is the
    last known year 2023, not 2024. *)
Lemma projection_includes_last_year :
  ¬ series_eq (projection_df 100 2023 3.3 2025)
      [(2024, 103.3%Q); (2025, 106.6%Q)].
Proof.
  intros H. apply Forall2_cons_1 in H as [[Hyear _] _].
  vm_compute in Hyear. discriminate Hyear.
Qed.

(** Tab 3 hands [projection_df] the script's constants.  The figure quoted
    in its warning is the last projected value, the one of year 2099; past
    the slider's reach (a range ending in 2100 or later) the projection is
    empty and [projected_rise[-1]] raises. *)

Lemma projection_df_last (last_rise : Q) (last_year : Z) (rate : Q) (horizon : Z) :
  last_year < horizon →
  last (projection_df last_rise last_year rate horizon).*2
  = Some (last_rise + inject_Z (horizon - 1 - last_year) * rate)%Q.
Proof.
  intros Hlt. rewrite fmap_last, last_lookup.
  assert (length (projection_df last_rise last_year rate horizon)
          = Z.to_nat (horizon - last_year)) as Hlen.
  { unfold projection_df, projection_years, projected_rise, range. cbv zeta.
    rewrite zip_fmap_diag, length_fmap, length_seqZ. done. }
  rewrite Hlen, <- Nat.sub_1_r.
  erewrite (proj2 (projection_df_lookup last_rise last_year rate horizon
    (Z.to_nat (horizon - last_year) - 1) _)).
  2:{ split; [lia|reflexivity]. }
  simpl. do 4 f_equal. lia.
Qed.

Lemma tab3_projection (fs : list Sea.row) (c : controls) (latest : Sea.row) :
  last fs = Some latest →
  tab3 fs c =
    if decide ((year_range c).2 < 2100) then
      Ok (Tab3 fs
            (projection_df (Sea.Sea_Level_mm latest) (year_range c).2 3.3 2100)
            ((Sea.Sea_Level_mm latest
              + inject_Z (2099 - (year_range c).2) * 3.3) / 1000)%Q)
    else Raised IndexError.
Proof.
  intros Hl. unfold tab3.
  rewrite nonempty_guard by (by destruct fs).
  rewrite (iloc_fmap_last _ _ _ Hl). cbn [mbind outcome_bind].
  destruct (decide _) as [Hy|Hy].
  - rewrite (iloc_last _ _ (projection_df_last _ _ _ _ Hy)). done.
  - assert (projection_df (Sea.Sea_Level_mm latest) (year_range c).2 3.3 2100 = [])
      as ->.
    { apply length_zero_iff_nil.
      unfold projection_df, projection_years, projected_rise, range. cbv zeta.
      rewrite zip_fmap_diag, length_fmap, length_seqZ. lia. }
    done.
Qed.

(** ** Correlation *)

Lemma merged_data_elem
    (temp_data : list Temp.row) (co2_data : list CO2.row) (row : merged_row) :
  row ∈ merged_data temp_data co2_data ↔
    ∃ t c, t ∈ temp_data ∧ c ∈ co2_data
      ∧ Temp.Region t = "Global"%string
      ∧ CO2.Year c = Temp.Year t
      ∧ row = {| merged_Year := Temp.Year t;
                 merged_Temperature_Anomaly := Temp.Temperature_Anomaly t;
                 merged_CO2_ppm := CO2.CO2_ppm c |}.
Proof.
  unfold merged_data. rewrite list_elem_of_bind. split.
  - intros (t & Hrow & Ht). apply list_elem_of_filter in Ht as [Hg Ht].
    apply list_elem_of_fmap in Hrow as (c & -> & Hc).
    apply list_elem_of_filter in Hc as [Hy Hc]. by exists t, c.
  - intros (t & c & Ht & Hc & Hg & Hy & ->). exists t. split.
    + apply list_elem_of_fmap. exists c. split; [done|].
      by apply list_elem_of_filter.
    + by apply list_elem_of_filter.
Qed.

Lemma Qsquare_nonneg (q : Q) : (0 <= q * q)%Q.
Proof. nra. Qed.

Lemma dot_cons (x : Q) a (y : Q) b :
  dot (x :: a) (y :: b) = (x * y + dot a b)%Q.
Proof. reflexivity. Qed.

Lemma dot_self_nonneg (a : list Q) : (0 <= dot a a)%Q.
Proof.
  induction a as [|x a IH]; [done|]. rewrite dot_cons.
  pose proof (Qsquare_nonneg x). lra.
Qed.

(** The quadratic form behind the Cauchy-Schwarz inequality: it is the sum
    of the squares (t * a_i - u * b_i)^2 plus what the longer list adds. *)
Lemma dot_quadratic_form (a b : list Q) (t u : Q) :
  (0 <= t * t * dot a a - 2 * t * u * dot a b + u * u * dot b b)%Q.
Proof.
  revert b. induction a as [|x a IH]; intros b.
  - pose proof (dot_self_nonneg b) as Hb.
    assert (dot [] b = 0%Q) as -> by reflexivity.
    assert (dot [] [] = 0%Q) as -> by reflexivity.
    pose proof (Qmult_le_0_compat _ _ (Qsquare_nonneg u) Hb). lra.
  - destruct b as [|y b].
    + pose proof (dot_self_nonneg (x :: a)) as Ha.
      assert (dot (x :: a) [] = 0%Q) as -> by reflexivity.
      assert (dot [] [] = 0%Q) as -> by reflexivity.
      pose proof (Qmult_le_0_compat _ _ (Qsquare_nonneg t) Ha). lra.
    + rewrite !dot_cons. specialize (IH b).
      generalize dependent (dot a a). generalize dependent (dot a b).
      generalize dependent (dot b b). intros vb cab va IH.
      pose proof (Qsquare_nonneg (t * x - u * y)) as Hsq.
      assert (t * t * (x * x + va) - 2 * t * u * (x * y + cab)
              + u * u * (y * y + vb)
              == (t * t * va - 2 * t * u * cab + u * u * vb)
                 + (t * x - u * y) * (t * x - u * y))%Q as -> by ring.
      lra.
Qed.

Lemma cauchy_schwarz (a b : list Q) :
  (dot a b * dot a b <= dot a a * dot b b)%Q.
Proof.
  pose proof (dot_self_nonneg a) as HA. pose proof (dot_self_nonneg b) as HB.
  pose proof (dot_quadratic_form a b (dot a b) (dot a a)) as H1.
  pose proof (dot_quadratic_form a b (dot b b) (dot a b)) as H2.
  pose proof (dot_quadratic_form a b 1 (dot a b)) as H3.
  generalize dependent (dot a b). generalize dependent (dot a a).
  generalize dependent (dot b b). intros vb HB va HA cab H1 H2 H3.
  destruct (Qlt_le_dec 0 va) as [HA'|HA'].
  - nra.
  - destruct (Qlt_le_dec 0 vb) as [HB'|HB'].
    + nra.
    + assert (va == 0)%Q by lra. assert (vb == 0)%Q by lra. nra.
Qed.

Lemma Q2R_pos (q : Q) : (0 <= q)%Q → ¬ (q == 0)%Q → (0 < Q2R q)%R.
Proof.
  intros Hq Hne. apply Qle_Rle in Hq. rewrite RMicromega.Q2R_0 in Hq.
  destruct Hq as [|Heq]; [done|]. exfalso. apply Hne.
  apply eqR_Qeq. by rewrite RMicromega.Q2R_0.
Qed.

Lemma quotient_bounds (cab va vb : Q) :
  (cab * cab <= va * vb)%Q → (0 <= va)%Q → (0 <= vb)%Q →
  ¬ (va == 0)%Q → ¬ (vb == 0)%Q →
  (-1 <= Q2R cab / (sqrt (Q2R va) * sqrt (Q2R vb)) <= 1)%R.
Proof.
  intros Hcs Hva Hvb Hna Hnb.
  pose proof (Q2R_pos va Hva Hna) as HAr.
  pose proof (Q2R_pos vb Hvb Hnb) as HBr.
  apply Qle_Rle in Hcs. rewrite !Q2R_mult in Hcs.
  pose proof (sqrt_lt_R0 _ HAr) as Hsa. pose proof (sqrt_lt_R0 _ HBr) as Hsb.
  pose proof (sqrt_sqrt (Q2R va) ltac:(lra)) as Ha2.
  pose proof (sqrt_sqrt (Q2R vb) ltac:(lra)) as Hb2.
  set (sa := sqrt (Q2R va)) in *. set (sb := sqrt (Q2R vb)) in *.
  set (s := Q2R cab) in *.
  assert (0 < sa * sb)%R as Hd by nra.
  assert (s * s <= (sa * sb) * (sa * sb))%R as Hsq by nra.
  assert (- (sa * sb) <= s <= sa * sb)%R as [Hlo Hhi] by (split; nra).
  split.
  - apply (Rmult_le_reg_r (sa * sb)); [done|].
    unfold Rdiv. rewrite Rmult_assoc, Rinv_l by lra. lra.
  - apply (Rmult_le_reg_r (sa * sb)); [done|].
    unfold Rdiv. rewrite Rmult_assoc, Rinv_l by lra. lra.
Qed.

Lemma corr_spec (a b : list Q) :
  match corr a b with
  | None =>
      (length a < 2)%nat
      ∨ (dot (demean a) (demean a) == 0)%Q
      ∨ (dot (demean b) (demean b) == 0)%Q
  | Some r =>
      (2 ≤ length a)%nat
      ∧ r = (Q2R (dot (demean a) (demean b))
             / (sqrt (Q2R (dot (demean a) (demean a)))
                * sqrt (Q2R (dot (demean b) (demean b)))))%R
      ∧ (-1 <= r <= 1)%R
  end.
Proof.
  unfold corr. destruct (decide _) as [Hn|Hn]; [by left|]. cbv zeta.
  destruct (Qeq_dec _ 0) as [Ha|Ha]; [by right; left|].
  destruct (Qeq_dec _ 0) as [Hb|Hb]; [by right; right|].
  split; [lia|]. split; [done|].
  apply quotient_bounds; auto using cauchy_schwarz, dot_self_nonneg.
Qed.

(** C4, as the code has it.  The coefficient shown in tab 4 is the Pearson
    coefficient of the two value columns of the inner join on Year (Global
    temperature rows against the CO2 rows).  Nothing is raised: when the
    join has fewer than two rows the result is NaN.  When it has two rows or
    more and both columns vary, the result is a number: the sum of the
    products of the deviations over the product of the roots of the two
    sums of squared deviations, and it lies in [-1, 1].  No number is ever
    produced that is not this quotient, or that lies outside [-1, 1]. *)
Theorem correlation_pearson_or_nan
    (temp_data : list Temp.row) (co2_data : list CO2.row) :
  let m := merged_data temp_data co2_data in
  let a := demean (merged_Temperature_Anomaly <$> m) in
  let b := demean (merged_CO2_ppm <$> m) in
  let pearson :=
    (Q2R (dot a b) / (sqrt (Q2R (dot a a)) * sqrt (Q2R (dot b b))))%R in
  (∀ row, row ∈ m ↔
     ∃ t c, t ∈ temp_data ∧ c ∈ co2_data
       ∧ Temp.Region t = "Global"%string
       ∧ CO2.Year c = Temp.Year t
       ∧ row = {| merged_Year := Temp.Year t;
                  merged_Temperature_Anomaly := Temp.Temperature_Anomaly t;
                  merged_CO2_ppm := CO2.CO2_ppm c |})
  ∧ ∃ v, tab4 temp_data co2_data = Ok v
      ∧ fig_corr v = m
      ∧ ((length m < 2)%nat → correlation v = None)
      ∧ ((2 ≤ length m)%nat → ¬ (dot a a == 0)%Q → ¬ (dot b b == 0)%Q →
           correlation v = Some pearson ∧ (-1 <= pearson <= 1)%R)
      ∧ (∀ r, correlation v = Some r →
           (2 ≤ length m)%nat ∧ r = pearson ∧ (-1 <= r <= 1)%R).
Proof.
  intros m a b pearson. split; [apply merged_data_elem|].
  eexists. split; [reflexivity|]. cbn [fig_corr correlation]. fold m.
  pose proof (corr_spec (merged_Temperature_Anomaly <$> m)
                (merged_CO2_ppm <$> m)) as Hspec.
  rewrite length_fmap in Hspec. fold a b in Hspec.
  split; [done|]. split; [|split].
  - intros Hlen. unfold corr. rewrite length_fmap.
    by rewrite decide_True.
  - intros Hlen Ha Hb.
    destruct (corr _ _) as [r|].
    + destruct Hspec as (_ & -> & Hbound). done.
    + exfalso. destruct Hspec as [?|[?|?]]; [lia|done|done].
  - intros r Hr. rewrite Hr in Hspec. exact Hspec.
Qed.

(** The claim as the spec words it fails: with an empty join, and with a
    join of one row, tab 4 is produced (no exception) and the coefficient is
    NaN. *)
Lemma correlation_short_join_is_nan :
  (length (merged_data sample_temp sample_co2) = 0%nat
   ∧ (∀ e, tab4 sample_temp sample_co2 ≠ Raised e)
   ∧ ∃ v, tab4 sample_temp sample_co2 = Ok v ∧ correlation v = None)
  ∧ (length (merged_data (take 1 linear_temp) sample_co2) = 1%nat
     ∧ (∀ e, tab4 (take 1 linear_temp) sample_co2 ≠ Raised e)
     ∧ ∃ v, tab4 (take 1 linear_temp) sample_co2 = Ok v
         ∧ correlation v = None).
Proof.
  split; (split; [reflexivity|]); (split; [done|]);
    eexists; (split; [reflexivity|]);
    cbn [correlation]; unfold corr; by rewrite decide_True by (vm_compute; lia).
Qed.

(** On noise-free tables that overlap in three years the coefficient is a
    number. *)
Example correlation_sample :
  ∃ v r, tab4 linear_temp sample_co2 = Ok v ∧ correlation v = Some r.
Proof.
  eexists _, _. split; [reflexivity|].
  cbn [correlation]. unfold corr.
  destruct (decide _) as [Hl|_]; [vm_compute in Hl; lia|].
  cbv zeta.
  destruct (Qeq_dec _ 0) as [Hz|_]; [vm_compute in Hz; discriminate|].
  destruct (Qeq_dec _ 0) as [Hz|_]; [vm_compute in Hz; discriminate|].
  reflexivity.
Qed.

Lemma quotient_one (cab va vb : Q) :
  (0 < cab)%Q → (cab * cab == va * vb)%Q → (0 <= va)%Q → (0 <= vb)%Q →
  (Q2R cab / (sqrt (Q2R va) * sqrt (Q2R vb)) = 1)%R.
Proof.
  intros Hpos Heq Hva Hvb.
  apply Qlt_Rlt in Hpos. rewrite RMicromega.Q2R_0 in Hpos.
  apply Qle_Rle in Hva, Hvb. rewrite RMicromega.Q2R_0 in Hva, Hvb.
  apply Qeq_eqR in Heq. rewrite !Q2R_mult in Heq.
  rewrite <- sqrt_mult by done. rewrite <- Heq.
  rewrite sqrt_square by lra. apply Rdiv_diag. lra.
Qed.

(** On the noise-free rows the two columns are in line, and the coefficient
    is 1. *)
Example correlation_noise_free_is_one :
  ∃ v, tab4 linear_temp sample_co2 = Ok v ∧ correlation v = Some 1%R.
Proof.
  eexists. split; [reflexivity|].
  cbn [correlation]. unfold corr.
  destruct (decide _) as [Hl|_]; [vm_compute in Hl; lia|].
  cbv zeta.
  destruct (Qeq_dec _ 0) as [Hz|_]; [vm_compute in Hz; discriminate|].
  destruct (Qeq_dec _ 0) as [Hz|_]; [vm_compute in Hz; discriminate|].
  f_equal. apply quotient_one.
  - vm_compute. reflexivity.
  - vm_compute. reflexivity.
  - apply dot_self_nonneg.
  - apply dot_self_nonneg.
Qed.

(** * Further properties of the script *)

(** ** The generated tables *)

Ltac in_list :=
  repeat first [ apply list_elem_of_here | apply list_elem_of_further ].

Lemma filter_fmap_comm {A B} (f : A → B) (P : B → Prop)
    `{!∀ y, Decision (P y)} (l : list A) :
  filter P (f <$> l) = f <$> filter (λ x, P (f x)) l.
Proof.
  induction l as [|x l IH]; [done|]. csimpl. rewrite !filter_cons, IH.
  by destruct (decide (P (f x))).
Qed.

(** Masking a run of consecutive years by a year range leaves the run of the
    years common to both. *)
Lemma filter_range_seqZ (a k s e : Z) :
  filter (λ y, s ≤ y ∧ y ≤ e) (seqZ a k)
  = seqZ (Z.max a s) (Z.min (a + k) (e + 1) - Z.max a s).
Proof.
  remember (Z.to_nat k) as j eqn:Hj. revert a k Hj.
  induction j as [|j IH]; intros a k Hj.
  - rewrite (seqZ_nil a k) by lia. rewrite seqZ_nil by lia. done.
  - rewrite (seqZ_cons a k) by lia. rewrite filter_cons.
    rewrite (IH (Z.succ a) (Z.pred k)) by lia.
    destruct (decide (s ≤ a ∧ a ≤ e)) as [Hin|Hout].
    + rewrite (seqZ_cons (Z.max a s)) by lia.
      replace (Z.max a s) with a by lia. f_equal. f_equal; lia.
    + destruct (decide (a < s)).
      * f_equal; lia.
      * rewrite !seqZ_nil by lia. done.
Qed.

Lemma fmap_eq_nil {A B} (f : A → B) (l : list A) : f <$> l = [] ↔ l = [].
Proof. split; [apply fmap_nil_inv | by intros ->]. Qed.

Lemma range_filter (a b s e : Z) :
  filter (λ y, s ≤ y ∧ y ≤ e) (range a b) = range (Z.max a s) (Z.min b (e + 1)).
Proof.
  unfold range. rewrite filter_range_seqZ. f_equal. lia.
Qed.

Lemma range_nil_iff (a b : Z) : range a b = [] ↔ b ≤ a.
Proof.
  unfold range. split.
  - intros H. apply (f_equal length) in H. rewrite length_seqZ in H.
    simpl in H. lia.
  - intros H. apply seqZ_nil. lia.
Qed.

Lemma elem_of_range (a b y : Z) : y ∈ range a b ↔ a ≤ y < b.
Proof. unfold range. rewrite elem_of_seqZ. lia. Qed.

Lemma temp_frame_fmap (f : Z → Q) (ys : list Z) (region : string) :
  temp_frame ys (f <$> ys) region
  = (λ y, {| Temp.Year := y; Temp.Temperature_Anomaly := f y;
             Temp.Region := region |}) <$> ys.
Proof. unfold temp_frame. by rewrite zip_with_fmap_r, zip_with_diag. Qed.

Lemma global_block (n : noise) :
  temp_frame years (temp_anomaly n) "Global"
  = (λ y, {| Temp.Year := y;
             Temp.Temperature_Anomaly :=
               (- 0.16 + inject_Z (y - 1880) * 0.008 + temp_noise n y)%Q;
             Temp.Region := "Global" |}) <$> years.
Proof. unfold temp_anomaly. apply temp_frame_fmap. Qed.

Lemma regional_block (n : noise) (region : string) :
  regional_data n region
  = (λ y, {| Temp.Year := y;
             Temp.Temperature_Anomaly :=
               ((- 0.16 + inject_Z (y - 1880) * 0.008 + temp_noise n y)
                * multiplier region)%Q;
             Temp.Region := region |}) <$> years.
Proof.
  unfold regional_data, temp_anomaly. rewrite <- list_fmap_compose.
  apply temp_frame_fmap.
Qed.

Lemma temp_df_blocks (n : noise) :
  temp_df n
  = temp_frame years (temp_anomaly n) "Global"
    ++ regional_data n "Northern Hemisphere"
    ++ regional_data n "Southern Hemisphere"
    ++ regional_data n "Arctic"
    ++ regional_data n "Tropics".
Proof. unfold temp_df, regions. cbn [foldl]. by rewrite <- !app_assoc. Qed.

Lemma temp_df_elem (n : noise) (r : Temp.row) :
  r ∈ temp_df n ↔
    ∃ y, y ∈ years
      ∧ (r = {| Temp.Year := y;
                Temp.Temperature_Anomaly :=
                  (- 0.16 + inject_Z (y - 1880) * 0.008 + temp_noise n y)%Q;
                Temp.Region := "Global" |}
         ∨ ∃ region, region ∈ regions
             ∧ r = {| Temp.Year := y;
                      Temp.Temperature_Anomaly :=
                        ((- 0.16 + inject_Z (y - 1880) * 0.008
                          + temp_noise n y) * multiplier region)%Q;
                      Temp.Region := region |}).
Proof.
  rewrite temp_df_blocks, global_block, !regional_block.
  rewrite !elem_of_app, !list_elem_of_fmap. unfold regions. split.
  - intros [(y & -> & Hy)|[(y & -> & Hy)|[(y & -> & Hy)|[(y & -> & Hy)
           |(y & -> & Hy)]]]]; exists y; (split; [done|]);
      [by left|right; eexists; split; [|done]..]; in_list.
  - intros (y & Hy & [->|(region & Hreg & ->)]); [left; by exists y|].
    right. repeat (apply elem_of_cons in Hreg as [->|Hreg];
                   [eauto 10|try right]).
    by apply elem_of_nil in Hreg.
Qed.

Lemma temp_df_keys (n : noise) :
  (λ r, (Temp.Region r, Temp.Year r)) <$> temp_df n
  = region ← "Global"%string :: regions; (λ y, (region, y)) <$> years.
Proof. vm_compute. reflexivity. Qed.

Lemma temp_df_keys_NoDup (n : noise) :
  NoDup ((λ r, (Temp.Region r, Temp.Year r)) <$> temp_df n).
Proof.
  rewrite temp_df_keys. apply NoDup_bind.
  - intros r1 r2 k _ _. rewrite !list_elem_of_fmap.
    intros (y1 & -> & _) (y2 & [= <- _] & _). done.
  - intros region _. apply NoDup_fmap_2; [|apply NoDup_seqZ].
    by intros y1 y2 [= ->].
  - unfold regions. refine (bool_decide_unpack _ _). vm_compute. exact I.
Qed.

(** X1. Whatever the draws, the generated temperature table is a complete
    grid: 720 rows, one for each of the five regions and each year from 1880
    to 2023, no (region, year) pair twice, and no row outside the grid. *)
Theorem generated_temperature_grid (n : noise) :
  length (temp_df n) = 720%nat
  ∧ (∀ region year,
       (∃ r, r ∈ temp_df n ∧ Temp.Region r = region ∧ Temp.Year r = year)
       ↔ region ∈ "Global"%string :: regions ∧ 1880 ≤ year ≤ 2023)
  ∧ NoDup ((λ r, (Temp.Region r, Temp.Year r)) <$> temp_df n).
Proof.
  split; [|split; [|apply temp_df_keys_NoDup]].
  - rewrite <- (length_fmap (λ r, (Temp.Region r, Temp.Year r))), temp_df_keys.
    vm_compute. reflexivity.
  - intros region year. split.
    + intros (r & Hr & <- & <-). apply temp_df_elem in Hr as (y & Hy & Hrow).
      apply elem_of_range in Hy.
      destruct Hrow as [->|(reg & Hreg & ->)]; cbn.
      * split; [left|lia].
      * split; [by right|lia].
    + intros [Hreg Hy]. apply elem_of_cons in Hreg as [->|Hreg].
      * exists {| Temp.Year := year;
                  Temp.Temperature_Anomaly :=
                    (- 0.16 + inject_Z (year - 1880) * 0.008
                     + temp_noise n year)%Q;
                  Temp.Region := "Global" |}.
        split; [|done]. apply temp_df_elem. exists year.
        split; [apply elem_of_range; lia|]. by left.
      * exists {| Temp.Year := year;
                  Temp.Temperature_Anomaly :=
                    ((- 0.16 + inject_Z (year - 1880) * 0.008
                      + temp_noise n year) * multiplier region)%Q;
                  Temp.Region := region |}.
        split; [|done]. apply temp_df_elem. exists year.
        split; [apply elem_of_range; lia|]. right. by exists region.
Qed.

(** X2. Every row of the generated temperature table is the Global row of
    its year scaled by the factor of its region: 1.2 for Arctic, 0.9 for
    Southern Hemisphere, and the Global value itself for every other
    region.  The Global value is -0.16 + 0.008 per year since 1880 plus the
    draw of the year. *)
Theorem regional_rows_scale_global (n : noise) (r : Temp.row) :
  r ∈ temp_df n →
  ∃ g, g ∈ temp_df n
    ∧ Temp.Region g = "Global"%string
    ∧ Temp.Year g = Temp.Year r
    ∧ Temp.Temperature_Anomaly g
      = (- 0.16 + inject_Z (Temp.Year r - 1880) * 0.008
         + temp_noise n (Temp.Year r))%Q
    ∧ (Temp.Region r = "Arctic"%string →
       (Temp.Temperature_Anomaly r == Temp.Temperature_Anomaly g * 1.2)%Q)
    ∧ (Temp.Region r = "Southern Hemisphere"%string →
       (Temp.Temperature_Anomaly r == Temp.Temperature_Anomaly g * 0.9)%Q)
    ∧ (Temp.Region r ≠ "Arctic"%string →
       Temp.Region r ≠ "Southern Hemisphere"%string →
       (Temp.Temperature_Anomaly r == Temp.Temperature_Anomaly g)%Q).
Proof.
  intros Hr. apply temp_df_elem in Hr as (y & Hy & Hrow).
  exists {| Temp.Year := y;
            Temp.Temperature_Anomaly :=
              (- 0.16 + inject_Z (y - 1880) * 0.008 + temp_noise n y)%Q;
            Temp.Region := "Global" |}.
  split; [apply temp_df_elem; exists y; split; [done|by left]|].
  destruct Hrow as [->|(region & Hreg & ->)]; cbn.
  - do 3 (split; [done|]). split; [done|]. split; [done|].
    intros _ _. reflexivity.
  - do 3 (split; [done|]). split; [|split].
    + intros ->. reflexivity.
    + intros ->. reflexivity.
    + intros Ha Hs. unfold multiplier.
      rewrite decide_False by done. rewrite decide_False by done.
      generalize (- 0.16 + inject_Z (y - 1880) * 0.008 + temp_noise n y)%Q.
      intros q. ring.
Qed.

Lemma regional_rows_scale_global_witness :
  ∃ g, g ∈ temp_df no_noise
    ∧ Temp.Region g = "Global"%string
    ∧ Temp.Year g = 1880
    ∧ Temp.Temperature_Anomaly g
      = (- 0.16 + inject_Z (1880 - 1880) * 0.008 + 0)%Q
    ∧ ("Arctic"%string = "Arctic"%string →
       ((- 0.16 + inject_Z (1880 - 1880) * 0.008 + 0) * multiplier "Arctic"
        == Temp.Temperature_Anomaly g * 1.2)%Q)
    ∧ ("Arctic"%string = "Southern Hemisphere"%string →
       ((- 0.16 + inject_Z (1880 - 1880) * 0.008 + 0) * multiplier "Arctic"
        == Temp.Temperature_Anomaly g * 0.9)%Q)
    ∧ ("Arctic"%string ≠ "Arctic"%string →
       "Arctic"%string ≠ "Southern Hemisphere"%string →
       ((- 0.16 + inject_Z (1880 - 1880) * 0.008 + 0) * multiplier "Arctic"
        == Temp.Temperature_Anomaly g)%Q).
Proof.
  apply (regional_rows_scale_global no_noise
           {| Temp.Year := 1880;
              Temp.Temperature_Anomaly :=
                ((- 0.16 + inject_Z (1880 - 1880) * 0.008 + 0)
                 * multiplier "Arctic")%Q;
              Temp.Region := "Arctic" |}).
  apply temp_df_elem. exists 1880. split; [apply elem_of_range; lia|].
  right. exists "Arctic"%string. split; [unfold regions; in_list|done].
Defined.

Lemma co2_df_fmap (n : noise) :
  co2_df n
  = (λ y, {| CO2.Year := y;
             CO2.CO2_ppm :=
               (315 + inject_Z (y - 1958) * 1.8 + co2_noise n y)%Q |})
    <$> co2_years.
Proof.
  unfold co2_df, co2_levels. by rewrite zip_with_fmap_r, zip_with_diag.
Qed.

Lemma sea_df_fmap (n : noise) :
  sea_df n
  = (λ y, {| Sea.Year := y;
             Sea.Sea_Level_mm :=
               (0 + inject_Z (y - 1993) * 3.3 + sea_noise n y)%Q |})
    <$> sea_years.
Proof.
  unfold sea_df, sea_level. by rewrite zip_with_fmap_r, zip_with_diag.
Qed.

Lemma filtered_co2_generated (n : noise) (c : controls) :
  filtered_co2 (co2_df n) c
  = (λ y, {| CO2.Year := y;
             CO2.CO2_ppm :=
               (315 + inject_Z (y - 1958) * 1.8 + co2_noise n y)%Q |})
    <$> range (Z.max 1958 (year_range c).1) (Z.min 2024 ((year_range c).2 + 1)).
Proof.
  unfold filtered_co2. rewrite co2_df_fmap, filter_fmap_comm. cbn [CO2.Year].
  unfold co2_years. by rewrite range_filter.
Qed.

Lemma filtered_sea_generated (n : noise) (c : controls) :
  filtered_sea (sea_df n) c
  = (λ y, {| Sea.Year := y;
             Sea.Sea_Level_mm :=
               (0 + inject_Z (y - 1993) * 3.3 + sea_noise n y)%Q |})
    <$> range (Z.max 1993 (year_range c).1) (Z.min 2024 ((year_range c).2 + 1)).
Proof.
  unfold filtered_sea. rewrite sea_df_fmap, filter_fmap_comm. cbn [Sea.Year].
  unfold sea_years. by rewrite range_filter.
Qed.


(** ** Sidebar *)

Lemma unique_elem {A} `{EqDecision A} (x : list A) (v : A) :
  v ∈ unique x ↔ v ∈ x.
Proof.
  induction x as [|w x IH]; [done|]. cbn [unique].
  rewrite !elem_of_cons, list_elem_of_filter, IH.
  destruct (decide (v = w)); tauto.
Qed.

Lemma unique_NoDup {A} `{EqDecision A} (x : list A) : NoDup (unique x).
Proof.
  induction x as [|w x IH]; cbn [unique]; constructor.
  - rewrite list_elem_of_filter. tauto.
  - by apply NoDup_filter.
Qed.

Lemma foldl_min_spec (y : Z) (rest : list Z) :
  foldl Z.min y rest ∈ y :: rest ∧ ∀ v, v ∈ y :: rest → foldl Z.min y rest ≤ v.
Proof.
  revert y. induction rest as [|w rest IH]; intros y; cbn [foldl].
  - split; [left|]. intros v Hv. apply list_elem_of_singleton in Hv. lia.
  - destruct (IH (Z.min y w)) as [Hin Hle]. split.
    + apply elem_of_cons in Hin as [Heq|Hin]; [|by do 2 right].
      rewrite Heq. destruct (Z.min_spec y w) as [[_ ->]|[_ ->]];
        [left|right; left].
    + intros v Hv. pose proof (Hle (Z.min y w) ltac:(left)) as Hm.
      apply elem_of_cons in Hv as [Hv|Hv]; [lia|].
      apply elem_of_cons in Hv as [Hv|Hv]; [lia|].
      apply Hle. by right.
Qed.

Lemma foldl_max_spec (y : Z) (rest : list Z) :
  foldl Z.max y rest ∈ y :: rest ∧ ∀ v, v ∈ y :: rest → v ≤ foldl Z.max y rest.
Proof.
  revert y. induction rest as [|w rest IH]; intros y; cbn [foldl].
  - split; [left|]. intros v Hv. apply list_elem_of_singleton in Hv. lia.
  - destruct (IH (Z.max y w)) as [Hin Hle]. split.
    + apply elem_of_cons in Hin as [Heq|Hin]; [|by do 2 right].
      rewrite Heq. destruct (Z.max_spec y w) as [[_ ->]|[_ ->]];
        [right; left|left].
    + intros v Hv. pose proof (Hle (Z.max y w) ltac:(left)) as Hm.
      apply elem_of_cons in Hv as [Hv|Hv]; [lia|].
      apply elem_of_cons in Hv as [Hv|Hv]; [lia|].
      apply Hle. by right.
Qed.

(** X4. What the sidebar offers, for any table: the region options are the
    distinct regions of the table, without repetition; the slider bounds are
    years that occur in the table and enclose the year of every row; only an
    empty table has no bounds. *)
Theorem sidebar_offers_what_the_table_holds (temp_data : list Temp.row) :
  NoDup (available_regions temp_data)
  ∧ (∀ region, region ∈ available_regions temp_data
               ↔ ∃ r, r ∈ temp_data ∧ Temp.Region r = region)
  ∧ match min_year temp_data, max_year temp_data with
    | Some lo, Some hi =>
        lo ≤ hi
        ∧ (∃ r, r ∈ temp_data ∧ Temp.Year r = lo)
        ∧ (∃ r, r ∈ temp_data ∧ Temp.Year r = hi)
        ∧ ∀ r, r ∈ temp_data → lo ≤ Temp.Year r ≤ hi
    | None, None => temp_data = []
    | _, _ => False
    end.
Proof.
  split; [apply unique_NoDup|]. split.
  - intros region. unfold available_regions.
    rewrite unique_elem, list_elem_of_fmap. split.
    + intros (r & -> & Hr). by exists r.
    + intros (r & Hr & <-). by exists r.
  - unfold min_year, max_year. destruct temp_data as [|r0 rest]; [done|].
    cbn [fmap list_fmap column_min column_max].
    destruct (foldl_min_spec (Temp.Year r0) (Temp.Year <$> rest)) as [Hlo Hmin].
    destruct (foldl_max_spec (Temp.Year r0) (Temp.Year <$> rest)) as [Hhi Hmax].
    change (Temp.Year r0 :: (Temp.Year <$> rest))
      with (Temp.Year <$> r0 :: rest) in *.
    split; [apply Hmin, Hhi|].
    split; [apply list_elem_of_fmap in Hlo as (r & ? & ?); by exists r|].
    split; [apply list_elem_of_fmap in Hhi as (r & ? & ?); by exists r|].
    intros r Hr. split.
    + apply Hmin. by apply list_elem_of_fmap_2.
    + apply Hmax. by apply list_elem_of_fmap_2.
Qed.

Lemma min_year_generated (n : noise) : min_year (temp_df n) = Some 1880.
Proof. vm_compute. reflexivity. Qed.

Lemma max_year_generated (n : noise) : max_year (temp_df n) = Some 2023.
Proof. vm_compute. reflexivity. Qed.

Lemma available_regions_generated (n : noise) :
  available_regions (temp_df n) = "Global"%string :: regions.
Proof. vm_compute. reflexivity. Qed.

Lemma sidebar_generated (n : noise) (c : controls) :
  sidebar (temp_df n) c ↔
    1880 ≤ (year_range c).1 ∧ (year_range c).1 ≤ (year_range c).2
    ∧ (year_range c).2 ≤ 2023
    ∧ ∀ region, region ∈ selected_regions c →
                region ∈ "Global"%string :: regions.
Proof.
  unfold sidebar.
  rewrite min_year_generated, max_year_generated, available_regions_generated.
  split.
  - intros (lo & hi & [= <-] & [= <-] & H). exact H.
  - intros H. by exists 1880, 2023.
Qed.

(** X5. On the generated table the slider runs from 1880 to 2023 and the
    multiselect lists Global, Northern Hemisphere, Southern Hemisphere,
    Arctic, Tropics, in this order, whatever the draws; the widgets' initial
    values (1980 to 2023, Global and Arctic) are among what they can
    return. *)
Theorem sidebar_of_generated_tables (n : noise) :
  min_year (temp_df n) = Some 1880
  ∧ max_year (temp_df n) = Some 2023
  ∧ available_regions (temp_df n)
    = ["Global"; "Northern Hemisphere"; "Southern Hemisphere"; "Arctic";
       "Tropics"]%string
  ∧ sidebar (temp_df n) (default_controls 2023).
Proof.
  split; [apply min_year_generated|]. split; [apply max_year_generated|].
  split; [apply available_regions_generated|].
  apply sidebar_generated. cbn. split; [lia|]. split; [lia|]. split; [lia|].
  intros region Hr. unfold regions.
  repeat (apply elem_of_cons in Hr as [->|Hr]; [in_list|]).
  by apply elem_of_nil in Hr.
Qed.

Lemma regional_data_region (n : noise) (region : string) (r : Temp.row) :
  r ∈ regional_data n region → Temp.Region r = region.
Proof.
  rewrite regional_block, list_elem_of_fmap. by intros (y & -> & _).
Qed.

Lemma global_temp_data_generated (n : noise) (c : controls) :
  global_temp_data (temp_df n) c
  = (λ y, {| Temp.Year := y;
             Temp.Temperature_Anomaly :=
               (- 0.16 + inject_Z (y - 1880) * 0.008 + temp_noise n y)%Q;
             Temp.Region := "Global" |})
    <$> range (Z.max 1880 (year_range c).1) (Z.min 2024 ((year_range c).2 + 1)).
Proof.
  unfold global_temp_data. rewrite temp_df_blocks, !filter_app.
  assert (∀ region, region ≠ "Global"%string →
    filter (λ r, (year_range c).1 ≤ Temp.Year r
                 ∧ Temp.Year r ≤ (year_range c).2
                 ∧ Temp.Region r = "Global"%string)
      (regional_data n region) = []) as Hnone.
  { intros region Hne. apply filter_none. intros r Hr (_ & _ & Hreg).
    apply regional_data_region in Hr. congruence. }
  rewrite !Hnone by done. rewrite !app_nil_r.
  rewrite global_block, filter_fmap_comm. cbn [Temp.Year Temp.Region].
  rewrite (list_filter_iff _ (λ y, (year_range c).1 ≤ y ∧ y ≤ (year_range c).2))
    by (intros y; split; [intros (? & ? & _); done | intros [? ?]; split_and!; done]).
  unfold years. by rewrite range_filter.
Qed.

(** ** The page as a whole *)

Lemma tab3_empty (c : controls) : ∃ msg, tab3 [] c = Ok (Tab3Info msg).
Proof. by eexists. Qed.

Lemma col2_cases (fc : list CO2.row) :
  match fc with
  | [] => col2 fc = Ok (MetricNA "CO2 Levels" "Data starts from 1958")
  | first :: _ =>
      ∃ latest, last fc = Some latest
        ∧ col2 fc = Ok (Metric "CO2 Levels" (CO2.CO2_ppm latest)
                          (Change (CO2.CO2_ppm latest - CO2.CO2_ppm first)))
  end.
Proof.
  destruct fc as [|r fc]; [done|].
  destruct (last_is_Some (r :: fc)) as [l Hl]; [simpl; lia|].
  exists l. split; [done|].
  unfold col2. rewrite nonempty_guard by done.
  rewrite (iloc_fmap_last _ _ _ Hl). cbn [mbind outcome_bind].
  rewrite fmap_cons, iloc_first. done.
Qed.

Lemma col3_cases (fs : list Sea.row) :
  match fs with
  | [] => col3 fs = Ok (MetricNA "Sea Level Rise" "Data starts from 1993")
  | _ :: _ =>
      ∃ latest, last fs = Some latest
        ∧ col3 fs = Ok (Metric "Sea Level Rise" (Sea.Sea_Level_mm latest)
                          (ChangeSince (Sea.Sea_Level_mm latest) 1993))
  end.
Proof.
  destruct fs as [|r fs]; [done|].
  destruct (last_is_Some (r :: fs)) as [l Hl]; [simpl; lia|].
  exists l. split; [done|].
  unfold col3. rewrite nonempty_guard by done.
  rewrite (iloc_fmap_last _ _ _ Hl). done.
Qed.

(** Everything but tab 3 always returns: the page is produced exactly when
    tab 3 is. *)
Lemma dashboard_follows_tab3
    (temp_data : list Temp.row) (co2_data : list CO2.row)
    (sea_data : list Sea.row) (c : controls) :
  ∃ ind t1 t2 t4,
    key_indicators temp_data (filtered_co2 co2_data c)
      (filtered_sea sea_data c) c = Ok ind
    ∧ tab1 (filtered_temp temp_data c) c = Ok t1
    ∧ tab2 (filtered_co2 co2_data c) = Ok t2
    ∧ tab4 temp_data co2_data = Ok t4
    ∧ dashboard temp_data co2_data sea_data c
      = match tab3 (filtered_sea sea_data c) c with
        | Ok t3 =>
            Ok {| page_indicators := ind;
                  page_tab1 := t1; page_tab2 := t2; page_tab3 := t3;
                  page_tab4 := t4;
                  page_download_temp :=
                    download_temp (filtered_temp temp_data c) c;
                  page_download_co2 :=
                    download_co2 (filtered_co2 co2_data c) c;
                  page_download_sea :=
                    download_sea (filtered_sea sea_data c) c |}
        | Raised e => Raised e
        end.
Proof.
  destruct (key_indicators_ok temp_data (filtered_co2 co2_data c)
              (filtered_sea sea_data c) c) as (ind & Hind & _).
  destruct (tab1_ok (filtered_temp temp_data c) c) as [t1 Ht1].
  destruct (tab2_ok (filtered_co2 co2_data c)) as [t2 Ht2].
  eexists ind, t1, t2, _. split; [done|]. split; [done|]. split; [done|].
  split; [reflexivity|].
  unfold dashboard. cbv zeta. rewrite Hind, Ht1, Ht2.
  cbn [mbind outcome_bind]. by destruct (tab3 _ c).
Qed.

(** X6. Tab 3 has three outcomes.  Without sea-level rows it shows its
    guidance message.  With rows and a range ending before 2100 it shows the
    projection from the end of the range, whose last row is the year 2099,
    and the figure it announces "by 2100" is that last value divided by
    1000.  With rows and a range ending in 2100 or later the projection is
    empty and reading its last value raises IndexError. *)
Theorem tab3_outcome (fs : list Sea.row) (c : controls) :
  match tab3 fs c with
  | Ok (Tab3 fig df final) =>
      fig = fs ∧ (year_range c).2 < 2100
      ∧ ∃ latest, last fs = Some latest
          ∧ df = projection_df (Sea.Sea_Level_mm latest) (year_range c).2
                   3.3 2100
          ∧ last df
            = Some (2099, (Sea.Sea_Level_mm latest
                           + inject_Z (2099 - (year_range c).2) * 3.3)%Q)
          ∧ final = ((Sea.Sea_Level_mm latest
                      + inject_Z (2099 - (year_range c).2) * 3.3) / 1000)%Q
  | Ok (Tab3Info _) => fs = []
  | Raised e => e = IndexError ∧ fs ≠ [] ∧ 2100 ≤ (year_range c).2
  end.
Proof.
  destruct fs as [|r fs]; [done|].
  destruct (last_is_Some (r :: fs)) as [l Hl]; [simpl; lia|].
  rewrite (tab3_projection _ c _ Hl).
  destruct (decide _) as [Hy|Hy]; [|split; [done|split; [done|lia]]].
  split; [done|]. split; [done|]. exists l. split; [done|]. split; [done|].
  split; [|done].
  rewrite last_lookup.
  assert (length (projection_df (Sea.Sea_Level_mm l) (year_range c).2 3.3 2100)
          = Z.to_nat (2100 - (year_range c).2)) as ->.
  { unfold projection_df, projection_years, projected_rise, range. cbv zeta.
    by rewrite zip_fmap_diag, length_fmap, length_seqZ. }
  rewrite <- Nat.sub_1_r. apply projection_df_lookup. split; [lia|].
  f_equal; [lia|]. do 3 f_equal. lia.
Qed.

(** X7. The page raises in one situation only, and then IndexError: some
    sea-level row is in range and the range ends in 2100 or later.  No other
    widget raises, [latest_temp] is never read unbound. *)
Theorem page_raises_only_past_2100
    (temp_data : list Temp.row) (co2_data : list CO2.row)
    (sea_data : list Sea.row) (c : controls) :
  match dashboard temp_data co2_data sea_data c with
  | Ok p => (year_range c).2 < 2100 ∨ filtered_sea sea_data c = []
  | Raised e =>
      e = IndexError ∧ 2100 ≤ (year_range c).2
      ∧ filtered_sea sea_data c ≠ []
  end.
Proof.
  destruct (dashboard_follows_tab3 temp_data co2_data sea_data c)
    as (ind & t1 & t2 & t4 & _ & _ & _ & _ & ->).
  destruct (filtered_sea sea_data c) as [|r fs] eqn:Hfs.
  { destruct (tab3_empty c) as [msg ->]. by right. }
  destruct (last_is_Some (r :: fs)) as [l Hl]; [simpl; lia|].
  rewrite (tab3_projection _ c _ Hl).
  destruct (decide _) as [Hy|Hy].
  - by left.
  - split; [done|]. split; [lia|done].
Qed.

(** X8. What the page offers for download is what the filters kept: the
    temperature button always carries the filtered temperature rows (also
    when there are none), the CO2 and sea-level buttons appear only when
    their filtered table has rows and a notice stands in otherwise; no
    exported row lies outside the year range or in an unselected region. *)
Theorem page_downloads_follow_filters
    (temp_data : list Temp.row) (co2_data : list CO2.row)
    (sea_data : list Sea.row) (c : controls) (p : page) :
  dashboard temp_data co2_data sea_data c = Ok p →
  let inside y := (year_range c).1 ≤ y ≤ (year_range c).2 in
  (∃ rows, page_download_temp p
           = DownloadButton "temperature_data" (year_range c) rows
     ∧ rows = filtered_temp temp_data c
     ∧ Forall (λ r, inside (Temp.Year r)
                    ∧ Temp.Region r ∈ selected_regions c) rows)
  ∧ match page_download_co2 p with
    | DownloadButton stem yrs rows =>
        stem = "co2_data"%string ∧ yrs = year_range c ∧ rows ≠ []
        ∧ rows = filtered_co2 co2_data c
        ∧ Forall (λ r, inside (CO2.Year r)) rows
    | DownloadInfo _ => filtered_co2 co2_data c = []
    end
  ∧ match page_download_sea p with
    | DownloadButton stem yrs rows =>
        stem = "sea_level_data"%string ∧ yrs = year_range c ∧ rows ≠ []
        ∧ rows = filtered_sea sea_data c
        ∧ Forall (λ r, inside (Sea.Year r)) rows
    | DownloadInfo _ => filtered_sea sea_data c = []
    end.
Proof.
  intros Hp inside.
  destruct (dashboard_follows_tab3 temp_data co2_data sea_data c)
    as (ind & t1 & t2 & t4 & _ & _ & _ & _ & Hd).
  rewrite Hd in Hp. destruct (tab3 _ c) as [t3|]; [|done].
  injection Hp as <-. cbn [page_download_temp page_download_co2
                           page_download_sea].
  split; [|split].
  - eexists. split; [reflexivity|]. split; [done|].
    apply Forall_forall. intros r Hr. unfold filtered_temp in Hr.
    apply list_elem_of_filter in Hr as [(? & ? & ?) _]. unfold inside. done.
  - unfold download_co2. destruct (decide _) as [Hn|Hn].
    + split; [done|]. split; [done|].
      split; [intros Heq; rewrite Heq in Hn; simpl in Hn; lia|]. split; [done|].
      apply Forall_forall. intros r Hr. unfold filtered_co2 in Hr.
      apply list_elem_of_filter in Hr as [(? & ?) _]. unfold inside. done.
    + destruct (filtered_co2 co2_data c); [done|simpl in Hn; lia].
  - unfold download_sea. destruct (decide _) as [Hn|Hn].
    + split; [done|]. split; [done|].
      split; [intros Heq; rewrite Heq in Hn; simpl in Hn; lia|]. split; [done|].
      apply Forall_forall. intros r Hr. unfold filtered_sea in Hr.
      apply list_elem_of_filter in Hr as [(? & ?) _]. unfold inside. done.
    + destruct (filtered_sea sea_data c); [done|simpl in Hn; lia].
Qed.

(** ** The shipped tables under the sidebar *)

Lemma range_head (a b : Z) : a < b → head (range a b) = Some a.
Proof. intros H. unfold range. rewrite seqZ_cons by lia. done. Qed.

Lemma range_last (a b : Z) : a < b → last (range a b) = Some (b - 1).
Proof.
  intros H. unfold range. rewrite last_lookup, length_seqZ.
  rewrite <- Nat.sub_1_r. rewrite lookup_seqZ_lt by lia. f_equal. lia.
Qed.

Lemma head_fmap {A B} (f : A → B) (l : list A) : head (f <$> l) = f <$> head l.
Proof. by destruct l. Qed.

Lemma head_cons_eq {A} (l : list A) (x : A) :
  head l = Some x → ∃ rest, l = x :: rest.
Proof. destruct l as [|y l]; [done|]. intros [= ->]. by eexists. Qed.

(** X9. On the generated table, for every range the slider can return, the
    Global rows in range are one per year from start to end, so the Global
    indicator is never N/A: it shows the anomaly of the end year and its
    change since the start year, and the warming rate divides that change by
    the number of years in range (end - start + 1) before scaling by 10. *)
Theorem generated_global_indicators
    (n : noise) (fc : list CO2.row) (fs : list Sea.row) (c : controls) :
  sidebar (temp_df n) c →
  let anomaly y :=
    (- 0.16 + inject_Z (y - 1880) * 0.008 + temp_noise n y)%Q in
  let s := (year_range c).1 in
  let e := (year_range c).2 in
  Temp.Year <$> global_temp_data (temp_df n) c = range s (e + 1)
  ∧ ∃ ind, key_indicators (temp_df n) fc fs c = Ok ind
      ∧ temp_metric ind
        = Metric "Global Temp Anomaly" (anomaly e)
            (ChangeSince (anomaly e - anomaly s) s)
      ∧ ∃ note, rate_metric ind
          = Metric "Warming Rate"
              ((anomaly e - anomaly s) / inject_Z (e - s + 1) * 10)%Q note.
Proof.
  intros Hside anomaly s e.
  apply sidebar_generated in Hside as (Hlo & Hse & Hhi & _). fold s e in Hlo, Hse, Hhi.
  pose proof (global_temp_data_generated n c) as Hg. fold s e in Hg.
  replace (Z.max 1880 s) with s in Hg by lia.
  replace (Z.min 2024 (e + 1)) with (e + 1) in Hg by lia.
  split; [rewrite Hg, <- list_fmap_compose; apply list_fmap_id|].
  destruct (key_indicators_ok (temp_df n) fc fs c) as (ind & Hind & Hshape).
  exists ind. split; [done|].
  assert (head (global_temp_data (temp_df n) c)
          = Some {| Temp.Year := s; Temp.Temperature_Anomaly := anomaly s;
                    Temp.Region := "Global" |}) as Hhead.
  { rewrite Hg, head_fmap, range_head by lia. done. }
  assert (last (global_temp_data (temp_df n) c)
          = Some {| Temp.Year := e; Temp.Temperature_Anomaly := anomaly e;
                    Temp.Region := "Global" |}) as Hlast.
  { rewrite Hg, fmap_last, range_last by lia. cbn.
    replace (e + 1 - 1) with e by lia. done. }
  assert (length (global_temp_data (temp_df n) c) = Z.to_nat (e - s + 1))
    as Hlen.
  { rewrite Hg, length_fmap. unfold range. rewrite length_seqZ. f_equal. lia. }
  destruct (head_cons_eq _ _ Hhead) as [rest Hcons].
  rewrite Hcons in Hshape, Hlast, Hlen.
  destruct Hshape as (latest & Hl & Htemp & note & Hrate).
  rewrite Hlast in Hl. injection Hl as <-.
  cbn [Temp.Temperature_Anomaly] in Htemp, Hrate.
  split; [done|]. exists note. rewrite Hrate. unfold avg_increase.
  rewrite Hlen, Z2Nat.id by lia. done.
Qed.

Lemma key_indicators_parts temp_data fc fs c (m2 m3 : metric) :
  col2 fc = Ok m2 → col3 fs = Ok m3 →
  ∃ m1 m4, key_indicators temp_data fc fs c
           = Ok {| temp_metric := m1; co2_metric := m2;
                   sea_metric := m3; rate_metric := m4 |}.
Proof.
  intros H2 H3. unfold key_indicators. cbv zeta. rewrite H2, H3.
  destruct (global_temp_data temp_data c) as [|first rest].
  - by eexists _, _.
  - destruct (last_is_Some (first :: rest)) as [l Hl]; [simpl; lia|].
    rewrite (col1_nonempty _ _ _ _ Hl). cbn [mbind outcome_bind snd fst].
    unfold col4. rewrite nonempty_guard by done. by eexists _, _.
Qed.

Lemma tab1_cases (ft : list Temp.row) (c : controls) :
  match ft with
  | [] => ∃ msg, tab1 ft c = Ok (Tab1Warning msg)
  | _ :: _ => ∃ charts, tab1 ft c = Ok (Tab1 charts)
  end.
Proof.
  destruct ft as [|r ft]; [by eexists|].
  unfold tab1. rewrite nonempty_guard by done.
  destruct (decide (_ ∈ _)); [by eexists|].
  rewrite fmap_cons, iloc_first. by eexists.
Qed.

Lemma filtered_temp_generated_nil (n : noise) (c : controls) :
  sidebar (temp_df n) c →
  filtered_temp (temp_df n) c = [] ↔ selected_regions c = [].
Proof.
  intros Hside. apply sidebar_generated in Hside as (Hlo & Hse & Hhi & Hsel).
  split.
  - intros Hnil. destruct (selected_regions c) as [|region sel] eqn:Hs; [done|].
    exfalso.
    assert (∃ r, r ∈ temp_df n ∧ Temp.Region r = region
                 ∧ Temp.Year r = (year_range c).1) as (r & Hr & Hreg & Hy).
    { specialize (Hsel region ltac:(left)).
      apply elem_of_cons in Hsel as [->|Hsel].
      - eexists {| Temp.Year := (year_range c).1 |}. split; [|done].
        apply temp_df_elem. exists (year_range c).1.
        split; [apply elem_of_range; lia|]. by left.
      - eexists {| Temp.Year := (year_range c).1 |}. split; [|done].
        apply temp_df_elem. exists (year_range c).1.
        split; [apply elem_of_range; lia|]. right. by exists region. }
    assert (r ∈ filtered_temp (temp_df n) c) as Hin.
    { apply list_elem_of_filter. rewrite Hs, Hreg, Hy.
      split; [|done]. split; [lia|]. split; [lia|left]. }
    rewrite Hnil in Hin. by apply elem_of_nil in Hin.
  - intros Hs. apply filter_none. intros r _ (_ & _ & Hin).
    rewrite Hs in Hin. by apply elem_of_nil in Hin.
Qed.

Lemma key_indicators_metrics temp_data fc fs c (ind : indicators) :
  key_indicators temp_data fc fs c = Ok ind →
  col2 fc = Ok (co2_metric ind) ∧ col3 fs = Ok (sea_metric ind).
Proof.
  intros Hind. destruct (col2_ok fc) as [m2 H2], (col3_ok fs) as [m3 H3].
  destruct (key_indicators_parts temp_data fc fs c m2 m3 H2 H3)
    as (m1 & m4 & Hparts).
  rewrite Hparts in Hind. injection Hind as <-. done.
Qed.

Lemma col2_na_iff (fc : list CO2.row) (hint : string) :
  col2 fc = Ok (MetricNA "CO2 Levels" hint) ↔
    fc = [] ∧ hint = "Data starts from 1958"%string.
Proof.
  pose proof (col2_cases fc) as Hc. destruct fc as [|r fc].
  - rewrite Hc. split; [by intros [= <-]|by intros [_ ->]].
  - destruct Hc as (l & _ & ->). split; [done|by intros [? _]].
Qed.

Lemma col3_na_iff (fs : list Sea.row) (hint : string) :
  col3 fs = Ok (MetricNA "Sea Level Rise" hint) ↔
    fs = [] ∧ hint = "Data starts from 1993"%string.
Proof.
  pose proof (col3_cases fs) as Hc. destruct fs as [|r fs].
  - rewrite Hc. split; [by intros [= <-]|by intros [_ ->]].
  - destruct Hc as (l & _ & ->). split; [done|by intros [? _]].
Qed.

Lemma tab3_before_2100 (fs : list Sea.row) (c : controls) :
  (year_range c).2 < 2100 → ∃ t3, tab3 fs c = Ok t3.
Proof.
  intros Hy. destruct fs as [|r fs]; [by eexists|].
  destruct (last_is_Some (r :: fs)) as [l Hl]; [simpl; lia|].
  rewrite (tab3_projection _ c _ Hl), decide_True by done. by eexists.
Qed.

(** X10. On the generated tables every state of the sidebar produces the
    page.  The Global indicator always shows a value; the CO2 indicator is
    N/A exactly when the range ends before 1958 and the sea-level one
    exactly when it ends before 1993; tab 1 shows its warning exactly when
    no region is selected. *)
Theorem generated_page_always_renders (n : noise) (c : controls) :
  sidebar (temp_df n) c →
  ∃ p, dashboard (temp_df n) (co2_df n) (sea_df n) c = Ok p
    ∧ (∃ value change, temp_metric (page_indicators p)
                       = Metric "Global Temp Anomaly" value change)
    ∧ (co2_metric (page_indicators p)
       = MetricNA "CO2 Levels" "Data starts from 1958"
       ↔ (year_range c).2 < 1958)
    ∧ (sea_metric (page_indicators p)
       = MetricNA "Sea Level Rise" "Data starts from 1993"
       ↔ (year_range c).2 < 1993)
    ∧ ((∃ msg, page_tab1 p = Tab1Warning msg) ↔ selected_regions c = []).
Proof.
  intros Hside.
  pose proof (filtered_temp_generated_nil n c Hside) as Hnil.
  pose proof Hside as Hbounds.
  apply sidebar_generated in Hbounds as (Hlo & Hse & Hhi & _).
  destruct (dashboard_follows_tab3 (temp_df n) (co2_df n) (sea_df n) c)
    as (ind & t1 & t2 & t4 & Hind & Ht1 & _ & _ & Hd).
  destruct (tab3_before_2100 (filtered_sea (sea_df n) c) c ltac:(lia))
    as [t3 Ht3].
  rewrite Ht3 in Hd. eexists. split; [exact Hd|].
  cbn [page_indicators page_tab1].
  destruct (key_indicators_metrics _ _ _ _ _ Hind) as [H2 H3].
  split; [|split; [|split]].
  - destruct (key_indicators_ok (temp_df n) (filtered_co2 (co2_df n) c)
                (filtered_sea (sea_df n) c) c) as (ind' & Hind' & Hshape).
    rewrite Hind in Hind'. injection Hind' as <-.
    rewrite global_temp_data_generated in Hshape.
    replace (Z.max 1880 (year_range c).1) with (year_range c).1 in Hshape by lia.
    replace (Z.min 2024 ((year_range c).2 + 1)) with ((year_range c).2 + 1)
      in Hshape by lia.
    unfold range in Hshape. rewrite seqZ_cons in Hshape by lia.
    cbn [fmap list_fmap] in Hshape.
    destruct Hshape as (latest & _ & -> & _). by eexists _, _.
  - transitivity (col2 (filtered_co2 (co2_df n) c)
                  = Ok (MetricNA "CO2 Levels" "Data starts from 1958")).
    { rewrite H2. split; [by intros ->|by intros [= ->]]. }
    rewrite col2_na_iff, filtered_co2_generated.
    rewrite fmap_eq_nil, range_nil_iff. split; [intros [? _]; lia|].
    intros ?. split; [lia|done].
  - transitivity (col3 (filtered_sea (sea_df n) c)
                  = Ok (MetricNA "Sea Level Rise" "Data starts from 1993")).
    { rewrite H3. split; [by intros ->|by intros [= ->]]. }
    rewrite col3_na_iff, filtered_sea_generated.
    rewrite fmap_eq_nil, range_nil_iff. split; [intros [? _]; lia|].
    intros ?. split; [lia|done].
  - rewrite <- Hnil. pose proof (tab1_cases (filtered_temp (temp_df n) c) c) as Hc.
    rewrite Ht1 in Hc. destruct (filtered_temp (temp_df n) c) as [|r ft].
    + destruct Hc as [msg [= ->]]. split; [done|by eexists].
    + destruct Hc as [ch [= ->]]. split; [by intros [? ?]|done].
Qed.

(** X11. On the generated tables, when the range ends in 1993 or later,
    the last sea-level row in range is the row of the end year, so the
    projection starts on the data: its first row repeats that row, and the
    announced figure is its value plus 3.3 per year up to 2099, over
    1000. *)
Theorem generated_projection_joins_data (n : noise) (c : controls) :
  sidebar (temp_df n) c → 1993 ≤ (year_range c).2 →
  let level y := (0 + inject_Z (y - 1993) * 3.3 + sea_noise n y)%Q in
  let e := (year_range c).2 in
  ∃ fig df final,
    tab3 (filtered_sea (sea_df n) c) c = Ok (Tab3 fig df final)
    ∧ last fig = Some {| Sea.Year := e; Sea.Sea_Level_mm := level e |}
    ∧ df = projection_df (level e) e 3.3 2100
    ∧ (∃ v, head df = Some (e, v) ∧ (v == level e)%Q)
    ∧ final = ((level e + inject_Z (2099 - e) * 3.3) / 1000)%Q.
Proof.
  intros Hside He level e.
  apply sidebar_generated in Hside as (Hlo & Hse & Hhi & _).
  fold e in Hse, Hhi, He.
  assert (last (filtered_sea (sea_df n) c)
          = Some {| Sea.Year := e; Sea.Sea_Level_mm := level e |}) as Hlast.
  { rewrite filtered_sea_generated, fmap_last. fold e.
    rewrite range_last by lia. cbn.
    replace (Z.min 2024 (e + 1) - 1) with e by lia. done. }
  rewrite (tab3_projection _ c _ Hlast). fold e.
  rewrite decide_True by lia. cbn [Sea.Sea_Level_mm].
  eexists _, _, _. split; [reflexivity|]. split; [done|]. split; [done|].
  split; [|done].
  exists (level e + inject_Z (e - e) * 3.3)%Q. split.
  - rewrite head_lookup. apply projection_df_lookup. split; [lia|].
    repeat f_equal; lia.
  - rewrite Z.sub_diag. unfold inject_Z. ring.
Qed.

Lemma default_sidebar : sidebar (temp_df no_noise) (default_controls 2023).
Proof.
  apply sidebar_generated. cbn. split; [lia|]. split; [lia|]. split; [lia|].
  intros region Hr. unfold regions.
  repeat (apply elem_of_cons in Hr as [->|Hr]; [in_list|]).
  by apply elem_of_nil in Hr.
Qed.

Lemma generated_projection_joins_data_witness :
  let level y := (0 + inject_Z (y - 1993) * 3.3 + 0)%Q in
  ∃ fig df final,
    tab3 (filtered_sea (sea_df no_noise) (default_controls 2023))
      (default_controls 2023) = Ok (Tab3 fig df final)
    ∧ last fig = Some {| Sea.Year := 2023; Sea.Sea_Level_mm := level 2023 |}
    ∧ df = projection_df (level 2023) 2023 3.3 2100
    ∧ (∃ v, head df = Some (2023, v) ∧ (v == level 2023%Z)%Q)
    ∧ final = ((level 2023%Z + inject_Z (2099 - 2023) * 3.3) / 1000)%Q.
Proof.
  apply (generated_projection_joins_data no_noise (default_controls 2023)
           default_sidebar).
  cbn. lia.
Defined.

Lemma generated_page_always_renders_witness :
  ∃ p, dashboard (temp_df no_noise) (co2_df no_noise) (sea_df no_noise)
         (default_controls 2023) = Ok p
    ∧ (∃ value change, temp_metric (page_indicators p)
                       = Metric "Global Temp Anomaly" value change)
    ∧ (co2_metric (page_indicators p)
       = MetricNA "CO2 Levels" "Data starts from 1958"
       ↔ (year_range (default_controls 2023)).2 < 1958)
    ∧ (sea_metric (page_indicators p)
       = MetricNA "Sea Level Rise" "Data starts from 1993"
       ↔ (year_range (default_controls 2023)).2 < 1993)
    ∧ ((∃ msg, page_tab1 p = Tab1Warning msg)
       ↔ selected_regions (default_controls 2023) = []).
Proof.
  apply (generated_page_always_renders no_noise (default_controls 2023)
           default_sidebar).
Defined.

Lemma generated_global_indicators_witness :
  let anomaly y := (- 0.16 + inject_Z (y - 1880) * 0.008 + 0)%Q in
  Temp.Year <$> global_temp_data (temp_df no_noise) (default_controls 2023)
  = range 1980 (2023 + 1)
  ∧ ∃ ind, key_indicators (temp_df no_noise) [] [] (default_controls 2023)
           = Ok ind
      ∧ temp_metric ind
        = Metric "Global Temp Anomaly" (anomaly 2023)
            (ChangeSince (anomaly 2023%Z - anomaly 1980%Z) 1980)
      ∧ ∃ note, rate_metric ind
          = Metric "Warming Rate"
              ((anomaly 2023%Z - anomaly 1980%Z)
               / inject_Z (2023 - 1980 + 1) * 10)%Q
              note.
Proof.
  apply (generated_global_indicators no_noise [] [] (default_controls 2023)
           default_sidebar).
Defined.

Lemma page_downloads_follow_filters_witness :
  let c := {| year_range := (1959, 1989);
              selected_regions := ["Arctic"]%string |} in
  ∃ p, dashboard sample_temp sample_co2 sample_sea c = Ok p
    ∧ (∃ rows, page_download_temp p
               = DownloadButton "temperature_data" (year_range c) rows
         ∧ rows = filtered_temp sample_temp c
         ∧ Forall (λ r, (year_range c).1 ≤ Temp.Year r ≤ (year_range c).2
                        ∧ Temp.Region r ∈ selected_regions c) rows)
    ∧ match page_download_co2 p with
      | DownloadButton stem yrs rows =>
          stem = "co2_data"%string ∧ yrs = year_range c ∧ rows ≠ []
          ∧ rows = filtered_co2 sample_co2 c
          ∧ Forall (λ r, (year_range c).1 ≤ CO2.Year r ≤ (year_range c).2)
              rows
      | DownloadInfo _ => filtered_co2 sample_co2 c = []
      end
    ∧ match page_download_sea p with
      | DownloadButton stem yrs rows =>
          stem = "sea_level_data"%string ∧ yrs = year_range c ∧ rows ≠ []
          ∧ rows = filtered_sea sample_sea c
          ∧ Forall (λ r, (year_range c).1 ≤ Sea.Year r ≤ (year_range c).2)
              rows
      | DownloadInfo _ => filtered_sea sample_sea c = []
      end.
Proof.
  intros c. eexists. split; [reflexivity|].
  apply (page_downloads_follow_filters sample_temp sample_co2 sample_sea c).
  reflexivity.
Defined.

(** ** Tab 1 *)

Lemma tab1_shape (ft : list Temp.row) (c : controls) :
  match ft with
  | [] => ∃ msg, tab1 ft c = Ok (Tab1Warning msg)
  | first :: _ =>
      let region :=
        if decide ("Global"%string ∈ Temp.Region <$> ft)
        then "Global"%string else Temp.Region first in
      tab1 ft c = Ok (Tab1 {|
        fig_temp := ft;
        decade_region := region;
        fig_decade := decade_summary (filter (λ r, Temp.Region r = region) ft);
        fig_regional :=
          if decide (0 < length (filter (λ r, Temp.Year r = (year_range c).2)
                                   ft))%nat
          then Some (filter (λ r, Temp.Year r = (year_range c).2) ft)
          else None |})
  end.
Proof.
  destruct ft as [|first ft]; [by eexists|]. cbv zeta.
  unfold tab1. rewrite nonempty_guard by done.
  destruct (decide (_ ∈ _)); [done|].
  rewrite fmap_cons, iloc_first. done.
Qed.

(** X12. Tab 1 never raises; it warns exactly when the filtered table is
    empty.  Otherwise the decade chart is drawn for one selected region:
    Global whenever a Global row passed the filter, else the region of the
    first filtered row; and its bars are the decade means of that region's
    rows in the year range. *)
Theorem decade_chart_follows_selection
    (temp_data : list Temp.row) (c : controls) :
  match tab1 (filtered_temp temp_data c) c with
  | Ok (Tab1 charts) =>
      filtered_temp temp_data c ≠ []
      ∧ fig_temp charts = filtered_temp temp_data c
      ∧ decade_region charts ∈ selected_regions c
      ∧ (decade_region charts = "Global"%string
         ↔ ∃ r, r ∈ filtered_temp temp_data c
                ∧ Temp.Region r = "Global"%string)
      ∧ (decade_region charts ≠ "Global"%string →
         Temp.Region <$> head (filtered_temp temp_data c)
         = Some (decade_region charts))
      ∧ fig_decade charts
        = decade_summary
            (filter (λ r, (year_range c).1 ≤ Temp.Year r
                          ∧ Temp.Year r ≤ (year_range c).2
                          ∧ Temp.Region r = decade_region charts) temp_data)
  | Ok (Tab1Warning _) => filtered_temp temp_data c = []
  | Raised _ => False
  end.
Proof.
  pose proof (tab1_shape (filtered_temp temp_data c) c) as Hshape.
  destruct (filtered_temp temp_data c) as [|first ft] eqn:Hft.
  { by destruct Hshape as [msg ->]. }
  cbv zeta in Hshape. rewrite Hshape. clear Hshape.
  cbn [fig_temp decade_region fig_decade].
  assert (∀ r, r ∈ first :: ft → Temp.Region r ∈ selected_regions c) as Hsel.
  { intros r Hr. rewrite <- Hft in Hr. unfold filtered_temp in Hr.
    apply list_elem_of_filter in Hr as [(_ & _ & ?) _]. done. }
  set (region := if decide ("Global"%string ∈ Temp.Region <$> first :: ft)
                 then "Global"%string else Temp.Region first).
  assert (region ∈ selected_regions c) as Hregion.
  { unfold region. destruct (decide _) as [Hg|Hg].
    - apply list_elem_of_fmap in Hg as (r & -> & Hr). by apply Hsel.
    - apply Hsel. left. }
  split; [done|]. split; [done|]. split; [done|]. split; [|split].
  - unfold region. destruct (decide _) as [Hg|Hg].
    + split; [|done]. intros _.
      apply list_elem_of_fmap in Hg as (r & Heq & Hr). by exists r.
    + split.
      * intros Heq. exfalso. apply Hg. rewrite <- Heq.
        apply list_elem_of_fmap_2. left.
      * intros (r & Hr & Heq). exfalso. apply Hg. rewrite <- Heq.
        by apply list_elem_of_fmap_2.
  - unfold region. destruct (decide _) as [Hg|Hg]; [done|]. done.
  - f_equal. rewrite <- Hft. unfold filtered_temp.
    rewrite list_filter_filter. apply list_filter_iff. intros r.
    split.
    + intros (Hr & ? & ? & _). done.
    + intros (? & ? & Hr). rewrite Hr. done.
Qed.

(** X13. The regional chart of tab 1 shows the rows of the selected
    regions for the end year of the range, and is replaced by a notice
    exactly when no selected region has a row for that year. *)
Theorem regional_chart_is_latest_year
    (temp_data : list Temp.row) (c : controls) :
  match tab1 (filtered_temp temp_data c) c with
  | Ok (Tab1 charts) =>
      match fig_regional charts with
      | Some rows =>
          rows ≠ []
          ∧ rows = filter (λ r, Temp.Year r = (year_range c).2
                                ∧ Temp.Region r ∈ selected_regions c)
                     temp_data
      | None =>
          ∀ r, r ∈ temp_data → Temp.Region r ∈ selected_regions c →
               Temp.Year r ≠ (year_range c).2
      end
  | Ok (Tab1Warning _) => filtered_temp temp_data c = []
  | Raised _ => False
  end.
Proof.
  pose proof (tab1_shape (filtered_temp temp_data c) c) as Hshape.
  destruct (filtered_temp temp_data c) as [|first ft] eqn:Hft.
  { by destruct Hshape as [msg ->]. }
  cbv zeta in Hshape. rewrite Hshape. clear Hshape. cbn [fig_regional].
  assert ((year_range c).1 ≤ (year_range c).2) as Hse.
  { assert (first ∈ filtered_temp temp_data c) as Hin by (rewrite Hft; left).
    apply list_elem_of_filter in Hin as [(? & ? & _) _]. lia. }
  assert (filter (λ r, Temp.Year r = (year_range c).2) (first :: ft)
          = filter (λ r, Temp.Year r = (year_range c).2
                         ∧ Temp.Region r ∈ selected_regions c) temp_data)
    as Hlatest.
  { rewrite <- Hft. unfold filtered_temp. rewrite list_filter_filter.
    apply list_filter_iff. intros r. split.
    - intros (? & _ & _ & ?). done.
    - intros (Hy & ?). rewrite Hy. split_and!; [done|lia|lia|done]. }
  rewrite Hlatest. destruct (decide _) as [Hn|Hn].
  - split; [|done]. intros Heq. rewrite Heq in Hn. simpl in Hn. lia.
  - intros r Hr Hreg Hy.
    assert (r ∈ filter (λ r, Temp.Year r = (year_range c).2
                             ∧ Temp.Region r ∈ selected_regions c) temp_data)
      as Hin by (by apply list_elem_of_filter).
    destruct (filter _ temp_data); [by apply elem_of_nil in Hin|].
    simpl in Hn. lia.
Qed.

(** ** Tab 4 and the growth column *)

Lemma dot_comm (a b : list Q) : (dot a b == dot b a)%Q.
Proof.
  revert b. induction a as [|x a IH]; intros [|y b]; try reflexivity.
  rewrite !dot_cons, IH. ring.
Qed.

Lemma corr_sym (a b : list Q) : length a = length b → corr a b = corr b a.
Proof.
  intros Hlen. unfold corr. rewrite Hlen.
  destruct (decide _); [done|]. cbv zeta.
  destruct (Qeq_dec (dot (demean a) (demean a)) 0),
           (Qeq_dec (dot (demean b) (demean b)) 0); try done.
  f_equal. rewrite (Qeq_eqR _ _ (dot_comm (demean a) (demean b))).
  by rewrite Rmult_comm.
Qed.

(** X14. The coefficient of tab 4 does not depend on the order of the two
    columns: temperature against CO2 and CO2 against temperature give the
    same result, NaN included. *)
Theorem correlation_is_symmetric
    (temp_data : list Temp.row) (co2_data : list CO2.row) :
  let m := merged_data temp_data co2_data in
  corr (merged_Temperature_Anomaly <$> m) (merged_CO2_ppm <$> m)
  = corr (merged_CO2_ppm <$> m) (merged_Temperature_Anomaly <$> m).
Proof. intros m. apply corr_sym. by rewrite !length_fmap. Qed.

(** X15. Tab 4 ignores the sidebar: whenever the page is produced for two
    states of the controls, the joined table and the coefficient are the
    same, the join being that of the unfiltered tables. *)
Theorem correlation_tab_ignores_sidebar
    (temp_data : list Temp.row) (co2_data : list CO2.row)
    (sea_data : list Sea.row) (c1 c2 : controls) (p1 p2 : page) :
  dashboard temp_data co2_data sea_data c1 = Ok p1 →
  dashboard temp_data co2_data sea_data c2 = Ok p2 →
  page_tab4 p1 = page_tab4 p2
  ∧ fig_corr (page_tab4 p1) = merged_data temp_data co2_data.
Proof.
  intros H1 H2.
  destruct (dashboard_follows_tab3 temp_data co2_data sea_data c1)
    as (? & ? & ? & t4 & _ & _ & _ & Ht4 & Hd1).
  destruct (dashboard_follows_tab3 temp_data co2_data sea_data c2)
    as (? & ? & ? & t4' & _ & _ & _ & Ht4' & Hd2).
  rewrite Hd1 in H1. rewrite Hd2 in H2.
  destruct (tab3 _ c1); [|done]. destruct (tab3 _ c2); [|done].
  injection H1 as <-. injection H2 as <-. cbn [page_tab4].
  rewrite Ht4 in Ht4'. injection Ht4' as <-. split; [done|].
  unfold tab4 in Ht4. cbn in Ht4. by injection Ht4 as <-.
Qed.

Lemma correlation_tab_ignores_sidebar_witness :
  ∃ p1 p2,
    dashboard sample_temp sample_co2 sample_sea sample_controls = Ok p1
    ∧ dashboard sample_temp sample_co2 sample_sea
        {| year_range := (1900, 1950); selected_regions := [] |} = Ok p2
    ∧ page_tab4 p1 = page_tab4 p2
    ∧ fig_corr (page_tab4 p1) = merged_data sample_temp sample_co2.
Proof.
  eexists _, _. split; [reflexivity|]. split; [reflexivity|].
  apply (correlation_tab_ignores_sidebar sample_temp sample_co2 sample_sea
           sample_controls
           {| year_range := (1900, 1950); selected_regions := [] |});
    reflexivity.
Defined.

Lemma filter_all {A} (P : A → Prop) `{!∀ x, Decision (P x)} (l : list A) :
  (∀ x, x ∈ l → P x) → filter P l = l.
Proof.
  induction l as [|x l IH]; intros HP; [done|].
  rewrite filter_cons_True by (apply HP; left).
  f_equal. apply IH. intros y Hy. apply HP. by right.
Qed.

Lemma global_rows_generated (n : noise) :
  filter (λ r, Temp.Region r = "Global"%string) (temp_df n)
  = (λ y, {| Temp.Year := y;
             Temp.Temperature_Anomaly :=
               (- 0.16 + inject_Z (y - 1880) * 0.008 + temp_noise n y)%Q;
             Temp.Region := "Global" |}) <$> years.
Proof.
  rewrite temp_df_blocks, !filter_app.
  assert (∀ region, region ≠ "Global"%string →
    filter (λ r, Temp.Region r = "Global"%string) (regional_data n region)
    = []) as Hnone.
  { intros region Hne. apply filter_none. intros r Hr Hreg.
    apply regional_data_region in Hr. congruence. }
  rewrite !Hnone by done. rewrite !app_nil_r, global_block.
  rewrite filter_fmap_comm. cbn [Temp.Region].
  by rewrite filter_all.
Qed.

Lemma co2_rows_of_year (n : noise) (y : Z) :
  filter (λ r, CO2.Year r = y) (co2_df n)
  = if decide (1958 ≤ y < 2024)
    then [ {| CO2.Year := y;
              CO2.CO2_ppm :=
                (315 + inject_Z (y - 1958) * 1.8 + co2_noise n y)%Q |} ]
    else [].
Proof.
  rewrite co2_df_fmap, filter_fmap_comm. cbn [CO2.Year]. unfold co2_years.
  rewrite (list_filter_iff _ (λ z, y ≤ z ∧ z ≤ y)) by (intros z; lia).
  rewrite range_filter. destruct (decide _) as [Hy|Hy].
  - replace (Z.max 1958 y) with y by lia.
    replace (Z.min 2024 (y + 1)) with (y + 1) by lia.
    unfold range. rewrite seqZ_cons, seqZ_nil by lia. done.
  - rewrite (proj2 (range_nil_iff _ _)) by lia. done.
Qed.

Lemma bind_singletons {A B} (f : A → B) (l : list A) :
  l ≫= (λ x, [f x]) = f <$> l.
Proof. induction l as [|x l IH]; [done|]. csimpl. by rewrite IH. Qed.

Lemma bind_all_nil {A B} (f : A → list B) (l : list A) :
  (∀ x, x ∈ l → f x = []) → l ≫= f = [].
Proof.
  induction l as [|x l IH]; intros Hf; [done|]. csimpl.
  rewrite Hf by left. apply IH. intros y Hy. apply Hf. by right.
Qed.

Lemma bind_ext_in {A B} (f g : A → list B) (l : list A) :
  (∀ x, x ∈ l → f x = g x) → l ≫= f = l ≫= g.
Proof.
  induction l as [|x l IH]; intros Hf; [done|]. csimpl.
  rewrite Hf by left. f_equal. apply IH. intros y Hy. apply Hf. by right.
Qed.

(** X16. The join of the generated tables has exactly one row per year
    from 1958 to 2023, in year order, pairing the Global anomaly of the year
    with its CO2 level; regional rows and the years before 1958 never enter
    the correlation. *)
Theorem generated_join_is_1958_onwards (n : noise) :
  merged_data (temp_df n) (co2_df n)
  = (λ y, {| merged_Year := y;
             merged_Temperature_Anomaly :=
               (- 0.16 + inject_Z (y - 1880) * 0.008 + temp_noise n y)%Q;
             merged_CO2_ppm :=
               (315 + inject_Z (y - 1958) * 1.8 + co2_noise n y)%Q |})
    <$> range 1958 2024.
Proof.
  unfold merged_data. rewrite global_rows_generated, list_fmap_bind.
  unfold years, range.
  replace (2024 - 1880) with ((1958 - 1880) + (2024 - 1958)) by lia.
  rewrite seqZ_app by lia. rewrite bind_app.
  rewrite (bind_all_nil _ (seqZ 1880 _)).
  2:{ intros y Hy. apply elem_of_seqZ in Hy. cbn.
      rewrite co2_rows_of_year, decide_False by lia. done. }
  replace (1880 + (1958 - 1880)) with 1958 by lia.
  rewrite app_nil_l, <- bind_singletons. apply bind_ext_in.
  intros y Hy. apply elem_of_seqZ in Hy. cbn.
  rewrite co2_rows_of_year, decide_True by lia. done.
Qed.

Lemma sum_diff_from (prev : Q) (x : list Q) :
  (sum (omap id (diff_from prev x)) == default prev (last x) - prev)%Q.
Proof.
  revert prev. induction x as [|v x IH]; intros prev.
  - change (0 == prev - prev)%Q. ring.
  - cbn [diff_from]. change (omap id (Some (v - prev)%Q :: diff_from v x))
      with ((v - prev)%Q :: omap id (diff_from v x)).
    change (sum ((v - prev)%Q :: omap id (diff_from v x)))
      with ((v - prev) + sum (omap id (diff_from v x)))%Q.
    rewrite IH. destruct x as [|w x]; cbn [last default from_option id].
    + ring.
    + change (last (v :: w :: x)) with (last (w :: x)).
      destruct (last_is_Some (w :: x)) as [l ->]; [simpl; lia|].
      cbn [default from_option id]. ring.
Qed.

(** X17. The CO2 indicator and the growth chart agree: the change shown by
    the indicator (latest minus first value in range) is the sum of the
    growth rates plotted in tab 2; the indicator is N/A only for an empty
    table and never raises. *)
Theorem growth_sums_to_change (fc : list CO2.row) :
  match col2 fc with
  | Ok (Metric _ _ (Change d)) =>
      (sum (omap Growth_Rate (co2_growth fc)) == d)%Q
  | Ok (MetricNA _ _) => fc = []
  | _ => False
  end.
Proof.
  pose proof (col2_cases fc) as Hc. destruct fc as [|first fc].
  { by rewrite Hc. }
  destruct Hc as (latest & Hl & ->).
  rewrite omap_via_fmap, growth_rate_column.
  cbn [fmap list_fmap diff].
  change (omap id (None :: ?l)) with (omap id l).
  rewrite sum_diff_from.
  assert (last (CO2.CO2_ppm <$> fc)
          = CO2.CO2_ppm <$> last fc) as Hlast by apply fmap_last.
  destruct fc as [|second fc].
  - cbn in Hl. injection Hl as <-.
    cbn [last default from_option id fmap list_fmap]. ring.
  - change (last (first :: second :: fc)) with (last (second :: fc)) in Hl.
    rewrite Hlast, Hl.
    cbn [default from_option id fmap option_fmap option_map]. ring.
Qed.

(** ** Decade means stay inside their decade *)

Lemma sum_cons (v : Q) (x : list Q) : sum (v :: x) = (v + sum x)%Q.
Proof. reflexivity. Qed.

Lemma inject_length_cons {A} (v : A) (x : list A) :
  (inject_Z (Z.of_nat (length (v :: x)))
   == 1 + inject_Z (Z.of_nat (length x)))%Q.
Proof.
  cbn [length]. rewrite Nat2Z.inj_succ, <- Z.add_1_l, inject_Z_plus.
  reflexivity.
Qed.

Lemma sum_le_bound (x : list Q) (M : Q) :
  (∀ v, v ∈ x → (v <= M)%Q) →
  (sum x <= inject_Z (Z.of_nat (length x)) * M)%Q.
Proof.
  induction x as [|v x IH]; intros Hb.
  - change (0 <= 0 * M)%Q. lra.
  - rewrite sum_cons, inject_length_cons.
    pose proof (Hb v ltac:(left)) as Hv.
    specialize (IH (λ w Hw, Hb w (list_elem_of_further _ _ _ Hw))).
    generalize dependent (inject_Z (Z.of_nat (length x))). intros k IH.
    generalize dependent (sum x). intros t IH. clear Hb. lra.
Qed.

Lemma sum_ge_bound (x : list Q) (m : Q) :
  (∀ v, v ∈ x → (m <= v)%Q) →
  (inject_Z (Z.of_nat (length x)) * m <= sum x)%Q.
Proof.
  induction x as [|v x IH]; intros Hb.
  - change (0 * m <= 0)%Q. lra.
  - rewrite sum_cons, inject_length_cons.
    pose proof (Hb v ltac:(left)) as Hv.
    specialize (IH (λ w Hw, Hb w (list_elem_of_further _ _ _ Hw))).
    generalize dependent (inject_Z (Z.of_nat (length x))). intros k IH.
    generalize dependent (sum x). intros t IH. clear Hb. lra.
Qed.

Lemma list_Qmax_exists (x : list Q) :
  x ≠ [] → ∃ b, b ∈ x ∧ ∀ v, v ∈ x → (v <= b)%Q.
Proof.
  induction x as [|v x IH]; [done|]. intros _.
  destruct x as [|w x].
  - exists v. split; [left|]. intros u Hu.
    apply list_elem_of_singleton in Hu as ->. apply Qle_refl.
  - destruct IH as (b & Hb & Hmax); [done|].
    destruct (Qlt_le_dec b v) as [Hlt|Hle].
    + exists v. split; [left|]. intros u Hu.
      apply elem_of_cons in Hu as [->|Hu]; [apply Qle_refl|].
      specialize (Hmax u Hu). lra.
    + exists b. split; [by right|]. intros u Hu.
      apply elem_of_cons in Hu as [->|Hu]; [done|]. by apply Hmax.
Qed.

Lemma list_Qmin_exists (x : list Q) :
  x ≠ [] → ∃ a, a ∈ x ∧ ∀ v, v ∈ x → (a <= v)%Q.
Proof.
  induction x as [|v x IH]; [done|]. intros _.
  destruct x as [|w x].
  - exists v. split; [left|]. intros u Hu.
    apply list_elem_of_singleton in Hu as ->. apply Qle_refl.
  - destruct IH as (a & Ha & Hmin); [done|].
    destruct (Qlt_le_dec v a) as [Hlt|Hle].
    + exists v. split; [left|]. intros u Hu.
      apply elem_of_cons in Hu as [->|Hu]; [apply Qle_refl|].
      specialize (Hmin u Hu). lra.
    + exists a. split; [by right|]. intros u Hu.
      apply elem_of_cons in Hu as [->|Hu]; [done|]. by apply Hmin.
Qed.

Lemma mean_between (x : list Q) (m : Q) :
  mean x = Some m →
  ∃ a b, a ∈ x ∧ b ∈ x ∧ (a <= m)%Q ∧ (m <= b)%Q.
Proof.
  intros Hm. assert (x ≠ []) as Hne by (by destruct x).
  rewrite mean_nonempty in Hm by done. injection Hm as <-.
  destruct (list_Qmin_exists x Hne) as (a & Ha & Hmin).
  destruct (list_Qmax_exists x Hne) as (b & Hb & Hmax).
  exists a, b. split; [done|]. split; [done|].
  assert (0 < inject_Z (Z.of_nat (length x)))%Q as Hpos.
  { rewrite <- (Zlt_Qlt 0). destruct x; [done|simpl; lia]. }
  split.
  - apply Qle_shift_div_l; [done|]. rewrite Qmult_comm.
    by apply sum_ge_bound.
  - apply Qle_shift_div_r; [done|]. rewrite Qmult_comm.
    by apply sum_le_bound.
Qed.

(** X18. A decade bar lies between two anomalies of its decade: for every
    row (d, m) of the decade summary there are input rows of decade d, one
    with anomaly at most m and one with anomaly at least m. *)
Theorem decade_mean_within_decade
    (seq : list Temp.row) (d : Z) (m : Q) :
  (d, Some m) ∈ decade_summary seq →
  ∃ lo hi, lo ∈ seq ∧ hi ∈ seq
    ∧ Decade lo = d ∧ Decade hi = d
    ∧ (Temp.Temperature_Anomaly lo <= m)%Q
    ∧ (m <= Temp.Temperature_Anomaly hi)%Q.
Proof.
  intros Hin. apply decade_summary_elem in Hin as [_ Hm].
  symmetry in Hm. apply mean_between in Hm as (a & b & Ha & Hb & Hlo & Hhi).
  apply list_elem_of_fmap in Ha as (lo & -> & Hlo_in).
  apply list_elem_of_fmap in Hb as (hi & -> & Hhi_in).
  apply list_elem_of_filter in Hlo_in as [? ?].
  apply list_elem_of_filter in Hhi_in as [? ?].
  by exists lo, hi.
Qed.

Lemma decade_mean_within_decade_witness :
  ∃ lo hi, lo ∈ global_temp_data sample_temp sample_controls
    ∧ hi ∈ global_temp_data sample_temp sample_controls
    ∧ Decade lo = 1990 ∧ Decade hi = 1990
    ∧ (Temp.Temperature_Anomaly lo <= 14800 # 20000)%Q
    ∧ (14800 # 20000 <= Temp.Temperature_Anomaly hi)%Q.
Proof.
  apply (decade_mean_within_decade
           (global_temp_data sample_temp sample_controls) 1990 (14800 # 20000)).
  vm_compute. in_list.
Defined.

(** ** Filters compose *)

(** X19. Filters compose by intersection: filtering a filtered table is
    filtering once by the common years and the regions selected both times,
    in either order, and the result is a subsequence of the table filtered
    once. *)
Theorem filters_compose
    (temp_data : list Temp.row) (co2_data : list CO2.row)
    (sea_data : list Sea.row) (c1 c2 : controls) :
  filtered_temp (filtered_temp temp_data c1) c2
  = filtered_temp temp_data (narrow c1 c2)
  ∧ filtered_co2 (filtered_co2 co2_data c1) c2
    = filtered_co2 co2_data (narrow c1 c2)
  ∧ filtered_sea (filtered_sea sea_data c1) c2
    = filtered_sea sea_data (narrow c1 c2)
  ∧ filtered_temp (filtered_temp temp_data c1) c2
    = filtered_temp (filtered_temp temp_data c2) c1
  ∧ filtered_temp temp_data (narrow c1 c2) `sublist_of`
      filtered_temp temp_data c1.
Proof.
  unfold filtered_temp, filtered_co2, filtered_sea, narrow.
  cbn [year_range selected_regions fst snd].
  split; [|split; [|split; [|split]]].
  - rewrite list_filter_filter. apply list_filter_iff. intros r.
    rewrite list_elem_of_filter. split.
    + intros ((? & ? & ?) & (? & ? & ?)). split_and!; [lia|lia|done|done].
    + intros (? & ? & ? & ?). split_and!; [lia|lia|done|lia|lia|done].
  - rewrite list_filter_filter. apply list_filter_iff. intros r. lia.
  - rewrite list_filter_filter. apply list_filter_iff. intros r. lia.
  - rewrite !list_filter_filter. apply list_filter_iff. intros r. tauto.
  - rewrite <- (list_filter_filter_l _ (λ r, (year_range c1).1 ≤ Temp.Year r
        ∧ Temp.Year r ≤ (year_range c1).2
        ∧ Temp.Region r ∈ selected_regions c1)).
    + apply sublist_filter.
    + intros r. rewrite list_elem_of_filter.
      intros (? & ? & ? & ?). split_and!; [lia|lia|done].
Qed.

(** ** Warming rate of the shipped table *)

Lemma key_indicators_rate temp_data fc fs c first rest latest ind :
  global_temp_data temp_data c = first :: rest →
  last (first :: rest) = Some latest →
  key_indicators temp_data fc fs c = Ok ind →
  let a := avg_increase (Temp.Temperature_Anomaly latest)
             (Temp.Temperature_Anomaly first) (length (first :: rest)) in
  rate_metric ind
  = Metric "Warming Rate" a
      (Note (if Qlt_le_dec 0.15 a then "Accelerating" else "Stable")).
Proof.
  intros Hg Hl Hind a. unfold key_indicators in Hind. cbv zeta in Hind.
  rewrite Hg in Hind.
  destruct (col2_ok fc) as [m2 H2], (col3_ok fs) as [m3 H3].
  rewrite H2, H3, (col1_nonempty _ _ _ _ Hl) in Hind.
  cbn [mbind outcome_bind snd fst] in Hind.
  unfold col4 in Hind. rewrite nonempty_guard in Hind by done.
  cbn [mbind outcome_bind mret outcome_ret] in Hind.
  by injection Hind as <-.
Qed.

Lemma inject_Z_sub (x y : Z) : (inject_Z (x - y) == inject_Z x - inject_Z y)%Q.
Proof.
  unfold Z.sub. rewrite inject_Z_plus, inject_Z_opp. reflexivity.
Qed.

(** X20. On the generated table the warming rate is
    (0.08 * (end - start) + 10 * (draw of end - draw of start))
    / (end - start + 1): the trend contributes less than 0.08 per decade, so
    the label reads "Stable" whenever the draw of the end year is not above
    that of the start year; "Accelerating" is the noise's doing. *)
Theorem generated_warming_rate
    (n : noise) (fc : list CO2.row) (fs : list Sea.row) (c : controls) :
  sidebar (temp_df n) c →
  let s := (year_range c).1 in
  let e := (year_range c).2 in
  ∃ ind rate label,
    key_indicators (temp_df n) fc fs c = Ok ind
    ∧ rate_metric ind = Metric "Warming Rate" rate (Note label)
    ∧ (rate == (0.08 * inject_Z (e - s)
                + 10 * (temp_noise n e - temp_noise n s))
               / inject_Z (e - s + 1))%Q
    ∧ ((temp_noise n e <= temp_noise n s)%Q → label = "Stable"%string).
Proof.
  intros Hside s e.
  apply sidebar_generated in Hside as (Hlo & Hse & Hhi & _).
  fold s e in Hlo, Hse, Hhi.
  pose proof (global_temp_data_generated n c) as Hg. fold s e in Hg.
  replace (Z.max 1880 s) with s in Hg by lia.
  replace (Z.min 2024 (e + 1)) with (e + 1) in Hg by lia.
  set (G := λ y, {| Temp.Year := y;
                    Temp.Temperature_Anomaly :=
                      (- 0.16 + inject_Z (y - 1880) * 0.008 + temp_noise n y)%Q;
                    Temp.Region := "Global" |}) in Hg.
  assert (head (global_temp_data (temp_df n) c) = Some (G s)) as Hhead.
  { rewrite Hg, head_fmap, range_head by lia. done. }
  assert (last (global_temp_data (temp_df n) c) = Some (G e)) as Hlast.
  { rewrite Hg, fmap_last, range_last by lia. cbn [fmap option_fmap option_map].
    do 2 f_equal. lia. }
  assert (length (global_temp_data (temp_df n) c) = Z.to_nat (e - s + 1))
    as Hlen.
  { rewrite Hg, length_fmap. unfold range. rewrite length_seqZ. f_equal. lia. }
  destruct (head_cons_eq _ _ Hhead) as [rest Hcons].
  rewrite Hcons in Hlast, Hlen.
  destruct (key_indicators_ok (temp_df n) fc fs c) as (ind & Hind & _).
  pose proof (key_indicators_rate _ _ _ _ _ _ _ _ Hcons Hlast Hind) as Hrate.
  cbv zeta in Hrate. rewrite Hlen in Hrate.
  unfold G in Hrate. cbn [Temp.Temperature_Anomaly] in Hrate.
  set (a := avg_increase _ _ _) in Hrate.
  assert (inject_Z (e - 1880) - inject_Z (s - 1880) == inject_Z (e - s))%Q
    as Hspan.
  { rewrite <- inject_Z_sub.
    replace (e - 1880 - (s - 1880)) with (e - s) by lia. reflexivity. }
  assert (inject_Z (e - s + 1) == inject_Z (e - s) + 1)%Q as Hcount.
  { rewrite inject_Z_plus. reflexivity. }
  assert (0 <= inject_Z (e - s))%Q as Hk.
  { rewrite <- (Zle_Qle 0). lia. }
  assert (0 < inject_Z (e - s + 1))%Q as HDpos by lra.
  assert (a == (0.08 * inject_Z (e - s)
                + 10 * (temp_noise n e - temp_noise n s))
               / inject_Z (e - s + 1))%Q as Heq.
  { unfold a, avg_increase. rewrite Z2Nat.id by lia.
    rewrite <- Hspan. field. lra. }
  exists ind, a, (if Qlt_le_dec 0.15 a then "Accelerating" else "Stable")%string.
  split; [done|]. split; [exact Hrate|]. split; [exact Heq|].
  intros Hnoise. destruct (Qlt_le_dec 0.15 a) as [Hacc|_]; [|done].
  exfalso. rewrite Heq in Hacc.
  apply (Qmult_lt_compat_r _ _ _ HDpos) in Hacc.
  assert ((0.08 * inject_Z (e - s)
           + 10 * (temp_noise n e - temp_noise n s))
          / inject_Z (e - s + 1) * inject_Z (e - s + 1)
          == 0.08 * inject_Z (e - s)
             + 10 * (temp_noise n e - temp_noise n s))%Q
    as Hcancel by (field; lra).
  rewrite Hcancel in Hacc. lra.
Qed.

Lemma generated_warming_rate_witness :
  ∃ ind rate label,
    key_indicators (temp_df no_noise) [] [] (default_controls 2023) = Ok ind
    ∧ rate_metric ind = Metric "Warming Rate" rate (Note label)
    ∧ (rate == (0.08 * inject_Z (2023 - 1980) + 10 * (0 - 0))
               / inject_Z (2023 - 1980 + 1))%Q
    ∧ ((0 <= 0)%Q → label = "Stable"%string).
Proof.
  apply (generated_warming_rate no_noise [] [] (default_controls 2023)
           default_sidebar).
Defined.

(** ** The Global indicators and the selection *)

(** C9. The Global-temperature indicators (latest anomaly with its change
    since the start of the range, and the warming rate) do not depend on the
    region selection: for one year range, any two selections give the same
    indicator row.  That row is computed from the rows of the unfiltered
    table whose region is Global and whose year lies in the range: with no
    such row both indicators are N/A; otherwise the first shows the anomaly
    of the last such row and its change since the first such row, and the
    second that change over the number of such rows, times 10, with its
    label.  The row is the one every produced page shows, and the page is
    produced whenever the range ends before 2100. *)
Theorem key_metrics_ignore_selection
    (temp_data : list Temp.row) (co2_data : list CO2.row)
    (sea_data : list Sea.row) (years : Z * Z) (sel1 sel2 : list string) :
  let c1 := {| year_range := years; selected_regions := sel1 |} in
  let c2 := {| year_range := years; selected_regions := sel2 |} in
  let c0 := {| year_range := years; selected_regions := [] |} in
  let g := filter (λ r, years.1 ≤ Temp.Year r
                        ∧ Temp.Year r ≤ years.2
                        ∧ Temp.Region r = "Global"%string) temp_data in
  page_indicators <$> dashboard temp_data co2_data sea_data c1
  = page_indicators <$> dashboard temp_data co2_data sea_data c2
  ∧ (∃ m env m4,
      col1 (global_temp_data temp_data c0) c0 = Ok (m, env)
      ∧ col4 (global_temp_data temp_data c0) env = Ok m4
      ∧ ∀ p, dashboard temp_data co2_data sea_data c1 = Ok p →
             temp_metric (page_indicators p) = m
             ∧ rate_metric (page_indicators p) = m4)
  ∧ ∃ ind,
      key_indicators temp_data (filtered_co2 co2_data c1)
        (filtered_sea sea_data c1) c1 = Ok ind
      ∧ key_indicators temp_data (filtered_co2 co2_data c2)
          (filtered_sea sea_data c2) c2 = Ok ind
      ∧ (∀ p, dashboard temp_data co2_data sea_data c1 = Ok p →
              page_indicators p = ind)
      ∧ (years.2 < 2100 →
         ∃ p, dashboard temp_data co2_data sea_data c1 = Ok p)
      ∧ match g with
        | [] =>
            temp_metric ind
            = MetricNA "Global Temp Anomaly" "Select 'Global' region"
            ∧ rate_metric ind
              = MetricNA "Warming Rate" "Select 'Global' region"
        | first :: _ =>
            ∃ latest, last g = Some latest
              ∧ temp_metric ind
                = Metric "Global Temp Anomaly"
                    (Temp.Temperature_Anomaly latest)
                    (ChangeSince (Temp.Temperature_Anomaly latest
                                  - Temp.Temperature_Anomaly first) years.1)
              ∧ let rate :=
                  ((Temp.Temperature_Anomaly latest
                    - Temp.Temperature_Anomaly first)
                   / inject_Z (Z.of_nat (length g)) * 10)%Q in
                rate_metric ind
                = Metric "Warming Rate" rate
                    (Note (if Qlt_le_dec 0.15 rate
                           then "Accelerating" else "Stable"))
        end.
Proof.
  intros c1 c2 c0 g.
  assert (∀ c, year_range c = years →
    ∃ ind, key_indicators temp_data (filtered_co2 co2_data c)
             (filtered_sea sea_data c) c = Ok ind
      ∧ ∃ m env, col1 (global_temp_data temp_data c0) c0 = Ok (m, env)
          ∧ col4 (global_temp_data temp_data c0) env = Ok (rate_metric ind)
          ∧ temp_metric ind = m) as Hki.
  { intros c Hc. unfold key_indicators. cbv zeta.
    replace (global_temp_data temp_data c) with (global_temp_data temp_data c0)
      by (unfold global_temp_data; rewrite Hc; done).
    replace (col1 (global_temp_data temp_data c0) c)
      with (col1 (global_temp_data temp_data c0) c0)
      by (unfold col1; rewrite Hc; done).
    destruct (col2_ok (filtered_co2 co2_data c)) as [m2 ->].
    destruct (col3_ok (filtered_sea sea_data c)) as [m3 ->].
    destruct (global_temp_data temp_data c0) as [|first rest].
    - eexists. split; [reflexivity|]. by eexists _, _.
    - destruct (last_is_Some (first :: rest)) as [l Hl]; [simpl; lia|].
      rewrite (col1_nonempty _ _ _ _ Hl). cbn [mbind outcome_bind snd fst].
      unfold col4. rewrite nonempty_guard by done.
      eexists. split; [reflexivity|]. by eexists _, _. }
  assert (∀ c, year_range c = years →
    page_indicators <$> dashboard temp_data co2_data sea_data c
    = page_indicators <$> dashboard temp_data co2_data sea_data c0) as Hpage.
  { intros c Hc. unfold dashboard. cbv zeta.
    replace (filtered_co2 co2_data c) with (filtered_co2 co2_data c0)
      by (unfold filtered_co2; rewrite Hc; done).
    replace (filtered_sea sea_data c) with (filtered_sea sea_data c0)
      by (unfold filtered_sea; rewrite Hc; done).
    replace (key_indicators temp_data (filtered_co2 co2_data c0)
               (filtered_sea sea_data c0) c)
      with (key_indicators temp_data (filtered_co2 co2_data c0)
               (filtered_sea sea_data c0) c0).
    2:{ unfold key_indicators, global_temp_data, col1. rewrite Hc. done. }
    replace (tab3 (filtered_sea sea_data c0) c)
      with (tab3 (filtered_sea sea_data c0) c0)
      by (unfold tab3; rewrite Hc; done).
    destruct (key_indicators _ _ _ c0) as [ind|e]; [|done].
    cbn [mbind outcome_bind].
    destruct (tab1_ok (filtered_temp temp_data c) c) as [t1 ->].
    destruct (tab1_ok (filtered_temp temp_data c0) c0) as [t1' ->].
    cbn [mbind outcome_bind].
    destruct (tab2_ok (filtered_co2 co2_data c0)) as [t2 ->].
    cbn [mbind outcome_bind].
    destruct (tab3 _ c0) as [t3|e]; [|done].
    done. }
  split; [|split].
  - rewrite (Hpage c1), (Hpage c2); done.
  - destruct (Hki c1 eq_refl) as (ind & Hind & m & env & Hc1 & Hc4 & Hm).
    exists m, env, (rate_metric ind). split; [done|]. split; [done|].
    intros p Hp. unfold dashboard in Hp. cbv zeta in Hp.
    rewrite Hind in Hp. cbn [mbind outcome_bind] in Hp.
    destruct (tab1 _ c1); [|done]. cbn [mbind outcome_bind] in Hp.
    destruct (tab2 _); [|done]. cbn [mbind outcome_bind] in Hp.
    destruct (tab3 _ c1); [|done]. cbn [mbind outcome_bind] in Hp.
    unfold tab4 in Hp. cbn in Hp. injection Hp as <-. done.
  - destruct (key_indicators_ok temp_data (filtered_co2 co2_data c1)
                (filtered_sea sea_data c1) c1) as (ind & Hind & Hshape).
    destruct (dashboard_follows_tab3 temp_data co2_data sea_data c1)
      as (ind' & t1 & t2 & t4 & Hind' & _ & _ & _ & Hd).
    rewrite Hind in Hind'. injection Hind' as <-.
    exists ind. split; [exact Hind|]. split; [exact Hind|].
    split; [|split].
    + intros p Hp. rewrite Hd in Hp.
      destruct (tab3 _ c1); [|done]. by injection Hp as <-.
    + intros Hy.
      destruct (tab3_before_2100 (filtered_sea sea_data c1) c1 Hy) as [t3 Ht3].
      rewrite Ht3 in Hd. eexists. exact Hd.
    + change (global_temp_data temp_data c1) with g in Hshape.
      pose proof (key_indicators_rate temp_data (filtered_co2 co2_data c1)
                    (filtered_sea sea_data c1) c1) as Hrate.
      change (global_temp_data temp_data c1) with g in Hrate.
      destruct g as [|first rest]; [exact Hshape|].
      destruct Hshape as (latest & Hl & Htemp & _).
      exists latest. split; [done|]. split; [exact Htemp|].
      exact (Hrate first rest latest ind eq_refl Hl Hind).
Qed.

Lemma key_metrics_ignore_selection_witness :
  let c := {| year_range := (1989, 1991);
              selected_regions := ["Arctic"]%string |} in
  page_indicators <$> dashboard sample_temp sample_co2 sample_sea c
  = page_indicators <$> dashboard sample_temp sample_co2 sample_sea
      {| year_range := (1989, 1991); selected_regions := [] |}
  ∧ ∃ ind,
      key_indicators sample_temp (filtered_co2 sample_co2 c)
        (filtered_sea sample_sea c) c = Ok ind
      ∧ temp_metric ind
        = Metric "Global Temp Anomaly" 0.76 (ChangeSince (0.76 - 0.72) 1989)
      ∧ rate_metric ind
        = Metric "Warming Rate"
            ((0.76 - 0.72) / inject_Z (Z.of_nat 3) * 10)%Q (Note "Stable").
Proof.
  intros c.
  destruct (key_metrics_ignore_selection sample_temp sample_co2 sample_sea
              (1989, 1991) ["Arctic"%string] [])
    as (Hsame & _ & ind & Hind & _ & _ & _ & Hshape).
  split; [exact Hsame|]. exists ind. split; [exact Hind|].
  destruct Hshape as (latest & Hl & Htemp & Hrate).
  injection Hl as <-. split; [exact Htemp|exact Hrate].
Defined.
